(** * Annotation engine of the enrichment service

    A shallow embedding of [background/services/enrichment/index.ts]:
    [resolveTransactionAnnotation] (primary classification and the
    sub-annotation pass over the receipt logs) and
    [enrichSignTypedDataRequest].

    JavaScript values are embedded as follows.
    - [undefined] or an absent property: [None] of an [option]; the
      resolver tests [to], [value] and [logs] for [undefined] alone, their
      types having no [null], and tests [input] for [null] as well, so for
      [input] [None] stands for both.
    - [bigint]: [Z].  The decoder's numeric arguments are taken as the
      integers they denote, so [BigInt(x)] is the identity.
    - a promise: the pair of how it settles and the collaborator calls made
      on the way ([Async]); a rejected promise and a thrown exception are
      both [Rejected].
    - the plain object built by [Object.fromEntries]: a [gmap string string].
      Its keys are outputs of [normalizeEVMAddress], which are hex strings,
      so no key names a property inherited from [Object.prototype].
    - [Date.now()]: the extra argument [resolvedTime]. *)

From Stdlib Require Import ZArith Ascii String List Bool Lia.
From Stdlib Require Import HexadecimalPos HexadecimalString Sorted Permutation.
From stdpp Require Import gmap strings list fin_maps.
Import ListNotations.

Local Open Scope string_scope.
Local Open Scope Z_scope.
Local Open Scope list_scope.

Set Warnings "-register-all".

(** ** Data model *)

Record AssetMetadata := {
  logoURL : option string;
}.

(** An asset of the indexing collaborator's list.  The optional fields are
    the properties that only some members of the [AnyAsset] union carry. *)
Record AnyAsset := {
  symbol : string;
  assetName : string;
  decimals : option Z;
  contractAddress : option string;
  homeNetwork : option string;
  metadata : option AssetMetadata;
}.

Record EVMNetwork := {
  networkName : string;
  chainID : string;
  baseAsset : AnyAsset;
}.

Record AnyEVMBlock := {
  blk_timestamp : Z;
}.

Record EVMLog := {
  log_contractAddress : string;
  log_data : string;
  log_topics : list string;
}.

(** [AnyEVMTransaction], or a partial [EIP1559TransactionRequest] with [from]
    (and possibly [blockHash]); a signature request has no [logs]. *)
Record AnyEVMTransaction := {
  tx_from : string;
  tx_to : option string;
  tx_input : option string;
  tx_value : option Z;
  tx_blockHash : option string;
  tx_logs : option (list EVMLog);
}.

Record AssetAmount := {
  asset : AnyAsset;
  amount : Z;
}.

(** [AssetAmount & AssetDecimalAmount]; the JavaScript number [decimalAmount]
    is kept as its decimal rendering. *)
Record DecimalAssetAmount := {
  rawAmount : AssetAmount;
  decimalAmount : string;
  localizedDecimalAmount : string;
}.

(** The variant-specific part of a [TransactionAnnotation], tagged by the
    [type] property. *)
Inductive AnnotationDetail :=
| ContractDeployment
| AssetTransfer (senderAddress recipientAddress : string)
                (recipientName : option string)
                (assetAmount : DecimalAssetAmount)
| AssetApproval (spenderAddress : string) (spenderName : option string)
                (assetAmount : DecimalAssetAmount)
| ContractInteraction (contractName : option string).

Inductive TransactionAnnotation := mkAnnotation {
  timestamp : Z;
  blockTimestamp : option Z;
  transactionLogoURL : option string;
  subannotations : option (list TransactionAnnotation);
  detail : AnnotationDetail;
}.

(** The [type] property of an annotation. *)
Definition annotationType (a : TransactionAnnotation) : string :=
  match detail a with
  | ContractDeployment => "contract-deployment"
  | AssetTransfer _ _ _ _ => "asset-transfer"
  | AssetApproval _ _ _ => "asset-approval"
  | ContractInteraction _ => "contract-interaction"
  end.

(** [txAnnotation.subannotations = subs] *)
Definition setSubannotations (a : TransactionAnnotation)
    (subs : list TransactionAnnotation) : TransactionAnnotation :=
  {| timestamp := timestamp a;
     blockTimestamp := blockTimestamp a;
     transactionLogoURL := transactionLogoURL a;
     subannotations := Some subs;
     detail := detail a |}.

(** Modelled from the spec: the result type of [parseERC20Tx] of [lib/erc20],
    which is not part of the sources at hand: a discriminated result
    [{name: "transfer" | "transferFrom" | "approve", args}]. *)
Inductive ERC20Tx :=
| Transfer (to : string) (amount : Z)
| TransferFrom (from to : string) (amount : Z)
| Approve (spender : string) (value : Z).

Definition erc20_name (t : ERC20Tx) : string :=
  match t with
  | Transfer _ _ => "transfer"
  | TransferFrom _ _ _ => "transferFrom"
  | Approve _ _ => "approve"
  end.

(** One decoded ERC-20 [Transfer] event. *)
Record ERC20TransferLog := {
  tl_contractAddress : string;
  tl_amount : Z;
  tl_senderAddress : string;
  tl_recipientAddress : string;
}.

Record NameResolverResults := {
  name : string;
}.

(** *** Typed-data signing requests *)

Record EIP712Domain := {
  domainName : option string;
  chainId : option Z;
  verifyingContract : option string;
}.

Record EIP712TypedData := {
  domain : EIP712Domain;
  primaryType : string;
  message : list (string * string);
}.

(** The message of a typed datum narrowed to [EIP2612TypedData]. *)
Record EIP2612Message := {
  owner : string;
  spender : string;
  permitValue : Z;
  nonce : Z;
  deadline : Z;
}.

Record SignTypedDataRequest := {
  account : string;
  typedData : EIP712TypedData;
}.

Inductive SignTypedDataAnnotation :=
| Unrecognized
| EIP2612Permit (permitAsset : option AnyAsset) (permitSpender : string)
                (permitAmount : Z) (permitDeadline : Z) (permitOwner : string).

Record EnrichedSignTypedDataRequest := {
  request : SignTypedDataRequest;
  annotation : SignTypedDataAnnotation;
}.

(** ** Promises and collaborator calls *)

Inductive Settled (A : Type) :=
| Fulfilled (v : A)
| Rejected.
Arguments Fulfilled {A} v.
Arguments Rejected {A}.

(** What the service asks of its collaborators, in the order asked. *)
Inductive Event :=
| GetBlockData (network : EVMNetwork) (blockHash : string)
| GetCachedAssets (network : EVMNetwork)
| LookUpName (address : string) (network : EVMNetwork)
| EmitEnrichedSignTypedDataRequest (r : EnrichedSignTypedDataRequest).

Definition Async (A : Type) : Type := Settled A * list Event.

Definition outcome {A} (m : Async A) : Settled A := fst m.
Definition calls {A} (m : Async A) : list Event := snd m.

Definition resolve {A} (a : A) : Async A := (Fulfilled a, []).
Definition reject {A} : Async A := (Rejected, []).

(** [await m] followed by the continuation [k]; a rejection skips [k]. *)
Definition andThen {A B} (m : Async A) (k : A -> Async B) : Async B :=
  match fst m with
  | Fulfilled a => (fst (k a), snd m ++ snd (k a))
  | Rejected => (Rejected, snd m)
  end.

Notation "'let*' x ':=' m 'in' k" := (andThen m (fun x => k))
  (at level 10, x name, m at level 100, k at level 200).

(** A call to an asynchronous collaborator method. *)
Definition call {A} (e : Event) (r : Settled A) : Async A := (r, [e]).

(** [Promise.allSettled]: every promise is started, in order, and the result
    always fulfils, with the list of how each one settled. *)
Definition allSettled {A} (ps : list (Async A)) : Async (list (Settled A)) :=
  (Fulfilled (map outcome ps), concat (map calls ps)).

(** ** Collaborators *)

Record ChainService := {
  getBlockData : EVMNetwork -> string -> Settled (option AnyEVMBlock);
}.

Record IndexingService := {
  getCachedAssets : EVMNetwork -> Settled (list AnyAsset);
}.

Record NameService := {
  lookUpName : string -> EVMNetwork -> Settled (option NameResolverResults);
}.

(** The private fields set by the constructor. *)
Record EnrichmentService := {
  chainService : ChainService;
  indexingService : IndexingService;
  nameService : NameService;
}.

(** The imported helpers whose code is not part of the sources at hand; they
    are pure and total. *)
Class Lib := {
  (* assets: the type guard of contract-backed fungible assets *)
  isSmartContractFungibleAsset : AnyAsset -> bool;
  (* lib/erc20 *)
  parseERC20Tx : string -> option ERC20Tx;
  parseLogsForERC20Transfers : list EVMLog -> list ERC20TransferLog;
  (* lib/utils *)
  normalizeEVMAddress : string -> string;
  sameEVMAddress : option string -> option string -> bool;
  (* @tallyho/hd-keyring *)
  normalizeHexAddress : string -> string;
  (* redux-slices/utils/asset-utils *)
  enrichAssetAmountWithDecimalValues : AssetAmount -> Z -> DecimalAssetAmount;
  (* enrichment/utils: the type guard, with the narrowed message *)
  isEIP2612TypedData : EIP712TypedData -> option EIP2612Message;
  (* constants *)
  ETHEREUM : EVMNetwork;
}.

(** ** Helpers of the resolver *)

(** Truthiness of an optional string: defined and not empty. *)
Definition truthy (s : option string) : bool :=
  match s with
  | Some s' => negb (String.eqb s' "")
  | None => false
  end.

(** [[...new Set(l)]]: the distinct strings of [l], each at the place of its
    first occurrence. *)
Fixpoint newSet (l : list string) : list string :=
  match l with
  | [] => []
  | x :: l' => x :: List.filter (fun y => negb (String.eqb x y)) (newSet l')
  end.

(** [Object.fromEntries]: a later entry replaces an earlier one that has the
    same key. *)
Definition fromEntries (entries : list (string * string))
    : gmap string string :=
  fold_left (fun m kv => <[kv.1 := kv.2]> m) entries ∅.

(** [.filter(result => result.status === "fulfilled" &&
             result.value[1] !== undefined).map(({ value }) => value)] *)
Definition fulfilledEntries (rs : list (Settled (string * option string)))
    : list (string * string) :=
  flat_map (fun r => match r with
                     | Fulfilled (k, Some n) => [(k, n)]
                     | _ => []
                     end) rs.

(** [asset?.metadata?.logoURL] *)
Definition assetLogoURL (a : option AnyAsset) : option string :=
  match a with
  | Some a' => match metadata a' with
               | Some md => logoURL md
               | None => None
               end
  | None => None
  end.

(** [block?.timestamp] *)
Definition blockTimestampOf (block : option AnyEVMBlock) : option Z :=
  option_map blk_timestamp block.

Section Resolver.
Context `{Lib}.
Variable this : EnrichmentService.

(** [assets.find(asset => isSmartContractFungibleAsset(asset) &&
                 sameEVMAddress(asset.contractAddress, address))] *)
Definition findFungibleAsset (assets : list AnyAsset) (address : string)
    : option AnyAsset :=
  List.find (fun a => isSmartContractFungibleAsset a &&
                      sameEVMAddress (contractAddress a) (Some address))
            assets.

(** [(await this.nameService.lookUpName({ address, network }))
     ?? { name: undefined }], destructured to its [name]. *)
Definition lookUpNameOrUndefined (address : string) (network : EVMNetwork)
    : Async (option string) :=
  let* r := call (LookUpName address network)
                 (lookUpName (nameService this) address network) in
  resolve (option_map name r).

(** Lines 119-124: the block is fetched when the transaction names one. *)
Definition fetchBlock (network : EVMNetwork) (transaction : AnyEVMTransaction)
    : Async (option AnyEVMBlock) :=
  if truthy (tx_blockHash transaction) then
    match tx_blockHash transaction with
    | Some h => call (GetBlockData network h)
                     (getBlockData (chainService this) network h)
    | None => resolve None
    end
  else resolve None.

(** Lines 126-260: the primary annotation.  [txAnnotation] starts out
    undefined and is assigned in every branch. *)
Definition resolvePrimaryAnnotation (network : EVMNetwork)
    (transaction : AnyEVMTransaction) (desiredDecimals : Z)
    (resolvedTime : Z) (block : option AnyEVMBlock)
    : Async (option TransactionAnnotation) :=
  match tx_to transaction with
  | None =>
      (* A missing recipient means a contract deployment. *)
      resolve (Some {| timestamp := resolvedTime;
                       blockTimestamp := blockTimestampOf block;
                       transactionLogoURL := None;
                       subannotations := None;
                       detail := ContractDeployment |})
  | Some to =>
      (* Lines 138-174: no input data. *)
      let withoutInput :=
        let* toName := lookUpNameOrUndefined to network in
        match tx_value transaction with
        | Some value =>
            resolve (Some
              {| timestamp := resolvedTime;
                 blockTimestamp := blockTimestampOf block;
                 transactionLogoURL := None;
                 subannotations := None;
                 detail :=
                   AssetTransfer (tx_from transaction) to toName
                     (enrichAssetAmountWithDecimalValues
                        {| asset := baseAsset network; amount := value |}
                        desiredDecimals) |})
        | None =>
            (* Fall back on a standard contract interaction. *)
            resolve (Some {| timestamp := resolvedTime;
                             blockTimestamp := blockTimestampOf block;
                             transactionLogoURL := None;
                             subannotations := None;
                             detail := ContractInteraction toName |})
        end in
      match tx_input transaction with
      | None => withoutInput
      | Some input =>
          if String.eqb input "0x" then withoutInput else
          let* assets := call (GetCachedAssets network)
                           (getCachedAssets (indexingService this) network) in
          (* See if the address matches a fungible asset. *)
          let matchingFungibleAsset := findFungibleAsset assets to in
          let transactionLogoURL' := assetLogoURL matchingFungibleAsset in
          let erc20Tx := parseERC20Tx input in
          match matchingFungibleAsset, erc20Tx with
          | Some matching, Some (Transfer to' amount') =>
              (* [erc20Tx.args.from] is undefined: [transaction.from] *)
              let* toName := lookUpNameOrUndefined to' network in
              resolve (Some
                {| timestamp := resolvedTime;
                   blockTimestamp := blockTimestampOf block;
                   transactionLogoURL := transactionLogoURL';
                   subannotations := None;
                   detail :=
                     AssetTransfer (tx_from transaction) to' toName
                       (enrichAssetAmountWithDecimalValues
                          {| asset := matching; amount := amount' |}
                          desiredDecimals) |})
          | Some matching, Some (TransferFrom from' to' amount') =>
              let* toName := lookUpNameOrUndefined to' network in
              resolve (Some
                {| timestamp := resolvedTime;
                   blockTimestamp := blockTimestampOf block;
                   transactionLogoURL := transactionLogoURL';
                   subannotations := None;
                   detail :=
                     AssetTransfer from' to' toName
                       (enrichAssetAmountWithDecimalValues
                          {| asset := matching; amount := amount' |}
                          desiredDecimals) |})
          | Some matching, Some (Approve spender' value') =>
              let* spenderName := lookUpNameOrUndefined spender' network in
              resolve (Some
                {| timestamp := resolvedTime;
                   blockTimestamp := blockTimestampOf block;
                   transactionLogoURL := transactionLogoURL';
                   subannotations := None;
                   detail :=
                     AssetApproval spender' spenderName
                       (enrichAssetAmountWithDecimalValues
                          {| asset := matching; amount := value' |}
                          desiredDecimals) |})
          | _, _ =>
              let* toName := lookUpNameOrUndefined to network in
              (* Fall back on a standard contract interaction. *)
              resolve (Some {| timestamp := resolvedTime;
                               blockTimestamp := blockTimestampOf block;
                               transactionLogoURL := transactionLogoURL';
                               subannotations := None;
                               detail := ContractInteraction toName |})
          end
      end
  end.

(** Lines 269-294: the names of the transfer logs' recipients, looked up
    as one batch and flattened to an address -> name map. *)
Definition resolveNamesByAddress (network : EVMNetwork)
    (erc20TransferLogs : list ERC20TransferLog)
    : Async (gmap string string) :=
  let* settled :=
    allSettled
      (map (fun address =>
              let* r := call (LookUpName address network)
                          (lookUpName (nameService this) address network) in
              resolve (normalizeEVMAddress address, option_map name r))
           (newSet (map tl_recipientAddress erc20TransferLogs))) in
  resolve (fromEntries (fulfilledEntries settled)).

(** Lines 296-330: one [asset-transfer] per transfer log whose contract
    matches a fungible asset. *)
Definition resolveSubannotations (assets : list AnyAsset)
    (namesByAddress : gmap string string) (desiredDecimals : Z)
    (resolvedTime : Z) (block : option AnyEVMBlock)
    (erc20TransferLogs : list ERC20TransferLog)
    : list TransactionAnnotation :=
  flat_map
    (fun l =>
       (* See if the address matches a fungible asset. *)
       let matchingFungibleAsset :=
         findFungibleAsset assets (tl_contractAddress l) in
       let recipientName :=
         namesByAddress !! normalizeEVMAddress (tl_recipientAddress l) in
       match matchingFungibleAsset with
       | Some matching =>
           [ {| timestamp := resolvedTime;
                blockTimestamp := blockTimestampOf block;
                transactionLogoURL := None;
                subannotations := None;
                detail :=
                  AssetTransfer (tl_senderAddress l) (tl_recipientAddress l)
                    recipientName
                    (enrichAssetAmountWithDecimalValues
                       {| asset := matching; amount := tl_amount l |}
                       desiredDecimals) |} ]
       | None => []
       end)
    erc20TransferLogs.

(** Lines 262-335: look up logs and resolve subannotations, if available.
    Assigning a property of an undefined [txAnnotation] throws. *)
Definition attachSubannotations (network : EVMNetwork)
    (transaction : AnyEVMTransaction) (desiredDecimals : Z)
    (resolvedTime : Z) (block : option AnyEVMBlock)
    (txAnnotation : option TransactionAnnotation)
    : Async (option TransactionAnnotation) :=
  match tx_logs transaction with
  | Some logs =>
      let* assets := call (GetCachedAssets network)
                       (getCachedAssets (indexingService this) network) in
      let erc20TransferLogs := parseLogsForERC20Transfers logs in
      let* namesByAddress :=
        resolveNamesByAddress network erc20TransferLogs in
      let subs := resolveSubannotations assets namesByAddress
                    desiredDecimals resolvedTime block erc20TransferLogs in
      if (0 <? length subs)%nat then
        match txAnnotation with
        | Some a => resolve (Some (setSubannotations a subs))
        | None => reject
        end
      else resolve txAnnotation
  | None => resolve txAnnotation
  end.

Definition resolveTransactionAnnotation (network : EVMNetwork)
    (transaction : AnyEVMTransaction) (desiredDecimals : Z)
    (resolvedTime : Z) : Async (option TransactionAnnotation) :=
  let* block := fetchBlock network transaction in
  let* txAnnotation :=
    resolvePrimaryAnnotation network transaction desiredDecimals
      resolvedTime block in
  attachSubannotations network transaction desiredDecimals resolvedTime
    block txAnnotation.

(** Modelled from the spec: [enrichEIP2612SignTypedDataRequest] of
    [enrichment/utils], which is not part of the sources at hand:
    it produces the permit annotation (owner, spender, amount, deadline,
    asset), where the asset may be undefined. *)
Definition enrichEIP2612SignTypedDataRequest (permit : EIP2612Message)
    (names : NameService) (correspondingAsset : option AnyAsset)
    : Async SignTypedDataAnnotation :=
  resolve (EIP2612Permit correspondingAsset (spender permit)
             (permitValue permit) (deadline permit) (owner permit)).

(** Lines 371-384: the asset whose contract address is the domain's
    verifying contract. *)
Definition findCorrespondingAsset (assets : list AnyAsset)
    (typedData : EIP712TypedData) : option AnyAsset :=
  List.find
    (fun a =>
       if truthy (verifyingContract (domain typedData)) then
         match contractAddress a, verifyingContract (domain typedData) with
         | Some c, Some v =>
             String.eqb (normalizeHexAddress c) (normalizeHexAddress v)
         | _, _ => false
         end
       else false)
    assets.

Definition enrichSignTypedDataRequest
    (signTypedDataRequest : SignTypedDataRequest)
    : Async EnrichedSignTypedDataRequest :=
  let typedData' := typedData signTypedDataRequest in
  let* annotation' :=
    match isEIP2612TypedData typedData' with
    | Some permit =>
        let* assets := call (GetCachedAssets ETHEREUM)
                         (getCachedAssets (indexingService this) ETHEREUM) in
        let correspondingAsset := findCorrespondingAsset assets typedData' in
        enrichEIP2612SignTypedDataRequest permit (nameService this)
          correspondingAsset
    | None => resolve Unrecognized
    end in
  let enrichedSignTypedDataRequest :=
    {| request := signTypedDataRequest; annotation := annotation' |} in
  let* _ := call (EmitEnrichedSignTypedDataRequest
                    enrichedSignTypedDataRequest) (Fulfilled tt) in
  resolve enrichedSignTypedDataRequest.
End Resolver.

(** ** The classification as the specification words it *)

(** What the decision order fixes of a primary annotation: its variant and,
    for transfers and approvals, the parties and the amount. *)
Inductive PrimaryKind :=
| KContractDeployment
| KAssetTransfer (sender recipient : string) (amt : DecimalAssetAmount)
| KAssetApproval (spenderAddress : string) (amt : DecimalAssetAmount)
| KContractInteraction.

Definition kindOf (a : TransactionAnnotation) : PrimaryKind :=
  match detail a with
  | ContractDeployment => KContractDeployment
  | AssetTransfer s r _ amt => KAssetTransfer s r amt
  | AssetApproval s _ amt => KAssetApproval s amt
  | ContractInteraction _ => KContractInteraction
  end.

(** Input data absent or ["0x"]. *)
Definition inputAbsentOrEmpty (input : option string) : bool :=
  match input with
  | None => true
  | Some i => String.eqb i "0x"
  end.

(** The five rules of the specification, first match wins. *)
Definition classifyBySpec `{Lib} (assets : list AnyAsset)
    (network : EVMNetwork) (transaction : AnyEVMTransaction)
    (desiredDecimals : Z) : PrimaryKind :=
  match tx_to transaction with
  | None => KContractDeployment
  | Some target =>
      if inputAbsentOrEmpty (tx_input transaction) then
        match tx_value transaction with
        | Some v =>
            KAssetTransfer (tx_from transaction) target
              (enrichAssetAmountWithDecimalValues
                 {| asset := baseAsset network; amount := v |}
                 desiredDecimals)
        | None => KContractInteraction
        end
      else
        let decoded := match tx_input transaction with
                       | Some i => parseERC20Tx i
                       | None => None
                       end in
        let sameAddress a :=
          isSmartContractFungibleAsset a &&
          sameEVMAddress (contractAddress a) (Some target) in
        match decoded, List.find sameAddress assets with
        | Some (Transfer r v), Some known =>
            KAssetTransfer (tx_from transaction) r
              (enrichAssetAmountWithDecimalValues
                 {| asset := known; amount := v |} desiredDecimals)
        | Some (TransferFrom f r v), Some known =>
            KAssetTransfer f r
              (enrichAssetAmountWithDecimalValues
                 {| asset := known; amount := v |} desiredDecimals)
        | Some (Approve s v), Some known =>
            KAssetApproval s
              (enrichAssetAmountWithDecimalValues
                 {| asset := known; amount := v |} desiredDecimals)
        | _, _ => KContractInteraction
        end
  end.

(** The snapshot of known assets, when the indexing collaborator gives one. *)
Definition knownAssets (this : EnrichmentService) (network : EVMNetwork)
    : list AnyAsset :=
  match getCachedAssets (indexingService this) network with
  | Fulfilled assets => assets
  | Rejected => []
  end.

(** No call to a collaborator rejects. *)
Definition collaboratorsSettle (this : EnrichmentService) : Prop :=
  (forall n h, getBlockData (chainService this) n h <> Rejected) /\
  (forall n, getCachedAssets (indexingService this) n <> Rejected) /\
  (forall a n, lookUpName (nameService this) a n <> Rejected).

(** The name a lookup contributes: none when it rejects or finds nothing. *)
Definition settledName (r : Settled (option NameResolverResults))
    : option string :=
  match r with
  | Fulfilled (Some res) => Some (name res)
  | _ => None
  end.

(** The entry a batched lookup leaves in the address -> name map. *)
Definition nameEntry `{Lib} (this : EnrichmentService) (network : EVMNetwork)
    (address : string) : list (string * string) :=
  match settledName (lookUpName (nameService this) address network) with
  | Some n => [(normalizeEVMAddress address, n)]
  | None => []
  end.

(** The addresses of one name-resolution batch. *)
Definition batchAddresses (erc20TransferLogs : list ERC20TransferLog)
    : list string :=
  newSet (map tl_recipientAddress erc20TransferLogs).

(** Whether a decoded transfer log's contract is a known fungible asset. *)
Definition matchesKnownAsset `{Lib} (assets : list AnyAsset)
    (l : ERC20TransferLog) : bool :=
  match findFungibleAsset assets (tl_contractAddress l) with
  | Some _ => true
  | None => false
  end.



(** The reading of the specification under which the batch holds the
    recipients of the matched logs only. *)
Definition batchIsMatchedRecipients `{Lib} (this : EnrichmentService)
    (network : EVMNetwork) (assets : list AnyAsset)
    (decoded : list ERC20TransferLog) : Prop :=
  forall address,
    In (LookUpName address network)
       (calls (resolveNamesByAddress this network decoded)) <->
    exists l, In l decoded /\ matchesKnownAsset assets l = true /\
              tl_recipientAddress l = address.

(** The reading of the specification under which every annotation of a
    transaction to a known asset that has a logo carries that logo. *)
Definition logoAlwaysAttached `{Lib} (this : EnrichmentService)
    (network : EVMNetwork) (transaction : AnyEVMTransaction)
    (desiredDecimals resolvedTime : Z) : Prop :=
  forall target assets url a,
    tx_to transaction = Some target ->
    getCachedAssets (indexingService this) network = Fulfilled assets ->
    assetLogoURL (findFungibleAsset assets target) = Some url ->
    outcome (resolveTransactionAnnotation this network transaction
               desiredDecimals resolvedTime) = Fulfilled (Some a) ->
    transactionLogoURL a = Some url.

(** ** A small world to run the resolver in *)

Module Fixture.

Definition ETH : AnyAsset :=
  {| symbol := "ETH"; assetName := "Ether"; decimals := Some 18;
     contractAddress := None; homeNetwork := None; metadata := None |}.

Definition USDC : AnyAsset :=
  {| symbol := "USDC"; assetName := "USD Coin"; decimals := Some 6;
     contractAddress := Some "0xa0b8"; homeNetwork := Some "1";
     metadata := Some {| logoURL := Some "https://logos/usdc.png" |} |}.

Definition mainnet : EVMNetwork :=
  {| networkName := "Ethereum"; chainID := "1"; baseAsset := ETH |}.

Definition lowerAscii (c : ascii) : ascii :=
  let n := nat_of_ascii c in
  if ((65 <=? n) && (n <=? 90))%nat then ascii_of_nat (n + 32) else c.

Fixpoint toLowerCase (s : string) : string :=
  match s with
  | EmptyString => EmptyString
  | String c s' => String (lowerAscii c) (toLowerCase s')
  end.

(** A decoder that knows three call data and reads a log's fields off its
    topics. *)
Definition decodeLog (l : EVMLog) : list ERC20TransferLog :=
  match log_topics l with
  | [ "Transfer"; s; r ] =>
      [ {| tl_contractAddress := log_contractAddress l; tl_amount := 1;
           tl_senderAddress := s; tl_recipientAddress := r |} ]
  | _ => []
  end.

Definition lib : Lib :=
  {| isSmartContractFungibleAsset := fun a =>
       match homeNetwork a, contractAddress a, decimals a with
       | Some _, Some _, Some _ => true
       | _, _, _ => false
       end;
     parseERC20Tx := fun input =>
       if String.eqb input "0xa9059cbb" then Some (Transfer "0xbbb" 5000000)
       else if String.eqb input "0x23b872dd"
            then Some (TransferFrom "0xaaa" "0xbbb" 7)
       else if String.eqb input "0x095ea7b3" then Some (Approve "0xccc" 1)
       else None;
     parseLogsForERC20Transfers := flat_map decodeLog;
     normalizeEVMAddress := toLowerCase;
     sameEVMAddress := fun a b =>
       match a, b with
       | Some a', Some b' => String.eqb (toLowerCase a') (toLowerCase b')
       | _, _ => false
       end;
     normalizeHexAddress := toLowerCase;
     enrichAssetAmountWithDecimalValues := fun aa _ =>
       {| rawAmount := aa; decimalAmount := "";
          localizedDecimalAmount := "" |};
     isEIP2612TypedData := fun td =>
       if String.eqb (primaryType td) "Permit"
       then Some {| owner := "0xaaa"; spender := "0xccc"; permitValue := 10;
                    nonce := 0; deadline := 99 |}
       else None;
     ETHEREUM := mainnet |}.

Definition chain : ChainService :=
  {| getBlockData := fun _ _ => Fulfilled (Some {| blk_timestamp := 1700 |}) |}.

(** Ethereum's list holds USDC; every other network's list is empty. *)
Definition indexing : IndexingService :=
  {| getCachedAssets := fun n =>
       Fulfilled (if String.eqb (chainID n) "1" then [ETH; USDC] else []) |}.

(** A name service that knows one name and never rejects. *)
Definition names : NameService :=
  {| lookUpName := fun a _ =>
       Fulfilled (if String.eqb a "0xbbb" then Some {| name := "bob.eth" |}
                  else None) |}.

(** A name service that rejects for one address. *)
Definition flakyNames : NameService :=
  {| lookUpName := fun a _ =>
       if String.eqb a "0xdead" then Rejected
       else Fulfilled (if String.eqb a "0xbbb"
                       then Some {| name := "bob.eth" |} else None) |}.

(** A name service that is down. *)
Definition downNames : NameService :=
  {| lookUpName := fun _ _ => Rejected |}.

Definition service : EnrichmentService :=
  {| chainService := chain; indexingService := indexing;
     nameService := names |}.

Definition flakyService : EnrichmentService :=
  {| chainService := chain; indexingService := indexing;
     nameService := flakyNames |}.

Definition downService : EnrichmentService :=
  {| chainService := chain; indexingService := indexing;
     nameService := downNames |}.

Definition transferLog (contract sender recipient : string) : EVMLog :=
  {| log_contractAddress := contract; log_data := "0x";
     log_topics := [ "Transfer"; sender; recipient ] |}.

(** A plain send of 0 wei to the USDC contract. *)
Definition zeroValueSend : AnyEVMTransaction :=
  {| tx_from := "0xaaa"; tx_to := Some "0xa0b8"; tx_input := Some "0x";
     tx_value := Some 0; tx_blockHash := None; tx_logs := None |}.

(** A call of an unknown function of the USDC contract. *)
Definition unknownCall : AnyEVMTransaction :=
  {| tx_from := "0xaaa"; tx_to := Some "0xa0b8";
     tx_input := Some "0xdeadbeef"; tx_value := None;
     tx_blockHash := Some "0xb10c"; tx_logs := None |}.

(** An ERC-20 transfer with three transfer logs, two from USDC and one
    from an unknown contract. *)
Definition transferWithLogs : AnyEVMTransaction :=
  {| tx_from := "0xaaa"; tx_to := Some "0xa0b8";
     tx_input := Some "0xa9059cbb"; tx_value := None;
     tx_blockHash := Some "0xb10c";
     tx_logs := Some [ transferLog "0xa0b8" "0xaaa" "0xbbb";
                       transferLog "0x5ca1" "0xaaa" "0xeee";
                       transferLog "0xa0b8" "0xaaa" "0xdead" ] |}.

(** The decoded transfer logs of [transferWithLogs]. *)
Definition decodedTransfers : list ERC20TransferLog :=
  [ {| tl_contractAddress := "0xa0b8"; tl_amount := 1;
       tl_senderAddress := "0xaaa"; tl_recipientAddress := "0xbbb" |};
    {| tl_contractAddress := "0x5ca1"; tl_amount := 1;
       tl_senderAddress := "0xaaa"; tl_recipientAddress := "0xeee" |};
    {| tl_contractAddress := "0xa0b8"; tl_amount := 1;
       tl_senderAddress := "0xaaa"; tl_recipientAddress := "0xdead" |} ].

(** Two transfers to one address, spelled in two ways. *)
Definition twoSpellings : list ERC20TransferLog :=
  [ {| tl_contractAddress := "0xa0b8"; tl_amount := 1;
       tl_senderAddress := "0xaaa"; tl_recipientAddress := "0xBBB" |};
    {| tl_contractAddress := "0xa0b8"; tl_amount := 1;
       tl_senderAddress := "0xaaa"; tl_recipientAddress := "0xbbb" |} ].

(** A send whose recipient's name lookup rejects. *)
Definition sendToUnresolvable : AnyEVMTransaction :=
  {| tx_from := "0xaaa"; tx_to := Some "0xdead"; tx_input := None;
     tx_value := Some 1; tx_blockHash := None; tx_logs := None |}.

Definition permitRequest (chain : Z) (contract : string)
    : SignTypedDataRequest :=
  {| account := "0xaaa";
     typedData :=
       {| domain := {| domainName := Some "Token"; chainId := Some chain;
                       verifyingContract := Some contract |};
          primaryType := "Permit"; message := [] |} |}.

Definition mailRequest : SignTypedDataRequest :=
  {| account := "0xaaa";
     typedData :=
       {| domain := {| domainName := Some "Mail"; chainId := Some 1;
                       verifyingContract := Some "0xa0b8" |};
          primaryType := "Mail"; message := [] |} |}.

End Fixture.

(** ** The rest of the enrichment service *)

(** A trace of any kind of event; [Async] is the instance at [Event]. *)
Definition Task (E A : Type) : Type := Settled A * list E.

Definition settles {E A} (t : Task E A) : Settled A := fst t.
Definition trace {E A} (t : Task E A) : list E := snd t.

Definition finish {E A} (a : A) : Task E A := (Fulfilled a, []).

Definition thenDo {E A B} (m : Task E A) (k : A -> Task E B) : Task E B :=
  match fst m with
  | Fulfilled a => (fst (k a), snd m ++ snd (k a))
  | Rejected => (Rejected, snd m)
  end.

Notation "'do*' x ':=' m 'in' k" := (thenDo m (fun x => k))
  (at level 10, x name, m at level 100, k at level 200).

Definition ask {E A} (e : E) (r : Settled A) : Task E A := (r, [e]).

(** [try { return await m } catch (e) { handler }], the handler leaving the
    events [onError] and returning undefined. *)
Definition tryCatch {E A} (m : Task E A) (onError : list E)
    : Task E (option A) :=
  match fst m with
  | Fulfilled a => (Fulfilled (Some a), snd m)
  | Rejected => (Fulfilled None, snd m ++ onError)
  end.

(** [Promise.allSettled] over tasks that are created one after the other:
    each runs up to its first [await] when it is created, that is through
    its first call, and the rest of what it does happens once answers
    arrive, after every task was started.  (The answers arrive in an order
    of their own; what follows them is listed task by task.) *)
Definition settleAll {E A} (ps : list (Task E A))
    : Task E (list (Settled A)) :=
  (Fulfilled (map settles ps),
   flat_map (fun p => firstn 1 (trace p)) ps ++
   flat_map (fun p => skipn 1 (trace p)) ps).

(** An [AnyEVMTransaction] as the chain service emits it: the fields the
    resolver reads, and the network it was seen on. *)
Record ChainTransaction := {
  ct_network : EVMNetwork;
  ct_fields : AnyEVMTransaction;
}.

(** [{ ...transaction, annotation }] *)
Record EnrichedEVMTransaction := {
  et_transaction : ChainTransaction;
  et_annotation : option TransactionAnnotation;
}.

(** [Partial<EIP1559TransactionRequest> & { from: string }]: the fields the
    resolver reads; the type has neither [blockHash] nor [logs]. *)
Record TransactionSignatureRequest := {
  sr_from : string;
  sr_to : option string;
  sr_input : option string;
  sr_value : option Z;
}.

Record EnrichedEVMTransactionSignatureRequest := {
  esr_request : TransactionSignatureRequest;
  esr_annotation : option TransactionAnnotation;
}.

(** What the service does: it asks its collaborators and emits events. *)
Inductive ServiceEvent :=
| Asked (e : Event)
| EmitEnrichedEVMTransaction (transaction : EnrichedEVMTransaction)
                             (forAccounts : list string)
| EmitEnrichedEVMTransactionSignatureRequest
    (r : EnrichedEVMTransactionSignatureRequest).

Definition isEmission (e : ServiceEvent) : bool :=
  match e with
  | Asked (EmitEnrichedSignTypedDataRequest _) => true
  | Asked _ => false
  | EmitEnrichedEVMTransaction _ _ => true
  | EmitEnrichedEVMTransactionSignatureRequest _ => true
  end.

Definition awaited {A} (m : Async A) : Task ServiceEvent A :=
  (fst m, map Asked (snd m)).

(** A signature request as the resolver sees it. *)
Definition asTransaction (r : TransactionSignatureRequest)
    : AnyEVMTransaction :=
  {| tx_from := sr_from r; tx_to := sr_to r; tx_input := sr_input r;
     tx_value := sr_value r; tx_blockHash := None; tx_logs := None |}.

Section Service.
Context `{Lib}.
Variable this : EnrichmentService.

(** Lines 405-419. *)
Definition enrichTransaction (transaction : ChainTransaction)
    (desiredDecimals : Z) (resolvedTime : Z) : Async EnrichedEVMTransaction :=
  let* annotation' :=
    resolveTransactionAnnotation this (ct_network transaction)
      (ct_fields transaction) desiredDecimals resolvedTime in
  resolve {| et_transaction := transaction; et_annotation := annotation' |}.

(** Lines 340-360. *)
Definition enrichTransactionSignature (network : EVMNetwork)
    (transaction : TransactionSignatureRequest) (desiredDecimals : Z)
    (resolvedTime : Z) : Task ServiceEvent EnrichedEVMTransactionSignatureRequest :=
  do* annotation' :=
    awaited (resolveTransactionAnnotation this network
               (asTransaction transaction) desiredDecimals resolvedTime) in
  let enrichedTxSignatureRequest :=
    {| esr_request := transaction; esr_annotation := annotation' |} in
  do* _ := ask (EmitEnrichedEVMTransactionSignatureRequest
                  enrichedTxSignatureRequest) (Fulfilled tt) in
  finish enrichedTxSignatureRequest.

(** Lines 90-101: the listener that [connectChainServiceEvents] puts on the
    chain service's ["transaction"] event. *)
Definition onChainTransaction (transaction : ChainTransaction)
    (forAccounts : list string) (resolvedTime : Z)
    : Task ServiceEvent unit :=
  do* enriched :=
    awaited (enrichTransaction transaction
               2 (* TODO desiredDecimals should be configurable *)
               resolvedTime) in
  ask (EmitEnrichedEVMTransaction enriched forAccounts) (Fulfilled tt).
End Service.

(** ** The transaction history *)

(** [Transactions.getHistory]: the transfers to and from an address over
    the last 30000 blocks, each fetched by hash and formatted.  Block
    numbers are far below 2^53, so the arithmetic on them is exact. *)

(** A JavaScript number that holds an integer, or [NaN]. *)
Inductive JSNumber :=
| Num (z : Z)
| NaN.

(** The double nearest to an integer, ties going to the even significand.
    An integer of size below 2^53 is a double itself; above, doubles are
    [2 ^ (log2 n - 52)] apart.  (Overflow to infinity, beyond 2^1024, is
    left out.) *)
Definition roundToDouble (z : Z) : Z :=
  let n := Z.abs z in
  if n <? 2 ^ 53 then z
  else
    let ulp := 2 ^ (Z.log2 n - 52) in
    let q := n / ulp in
    let r := n mod ulp in
    let q' := if 2 * r <? ulp then q
              else if ulp <? 2 * r then q + 1
              else if Z.even q then q else q + 1 in
    Z.sgn z * (q' * ulp).

(** [a - b]: the exact difference, rounded to a double. *)
Definition minus (a b : JSNumber) : JSNumber :=
  match a, b with
  | Num x, Num y => Num (roundToDouble (x - y))
  | _, _ => NaN
  end.

(** [n.toString(16)] *)
Definition toString16 (n : JSNumber) : string :=
  match n with
  | Num z => NilZero.string_of_int (Z.to_hex_int z)
  | NaN => "NaN"
  end.

(** Line 16: [`0x${(blockNumer - (10e3 * 3)).toString(16)}`] *)
Definition fromBlockTag (blockNumer : JSNumber) : string :=
  ("0x" ++ toString16 (minus blockNumer (Num (10000 * 3))))%string.

(** How [Array.prototype.sort] reads what the comparator returns: a
    negative number or zero keeps the order, and [NaN] counts as zero. *)
Definition notPositive (n : JSNumber) : bool :=
  match n with
  | Num z => z <=? 0
  | NaN => true
  end.

Fixpoint insertSorted {A} (cmp : A -> A -> JSNumber) (x : A) (l : list A)
    : list A :=
  match l with
  | [] => [x]
  | y :: l' => if notPositive (cmp x y) then x :: y :: l'
               else y :: insertSorted cmp x l'
  end.

(** [l.sort(cmp)].  The sort is stable, so for a consistent comparator
    this is the one order every engine gives.  For a comparator that is not
    consistent, as one that returns [NaN] for some pairs, the order is
    left to the engine and this is one possible order only: what is proved
    of the order below is proved for comparators that return numbers. *)
Definition arraySort {A} (cmp : A -> A -> JSNumber) (l : list A) : list A :=
  fold_right (insertSorted cmp) [] l.

(** A value the history passes through without looking at it. *)
Definition JSValue : Type := string.

(** One transfer of an [alchemy_getAssetTransfers] answer. *)
Record HistoryTransfer := {
  hash : string;
  blockNum : string;
}.

Record AssetTransfersParams := {
  fromBlock : string;
  toBlock : string;
  toAddress : option string;
  fromAddress : option string;
  excludeZeroValue : bool;
}.

Record AssetTransfersResult := {
  transfers : option (list HistoryTransfer);
}.

(** [this.query], the wrapped provider. *)
Record EthProviderWrapper := {
  eth_blockNumber : Settled string;
  alchemy_getAssetTransfers : AssetTransfersParams -> Settled AssetTransfersResult;
  eth_getTransactionByHash : string -> Settled (option (gmap string JSValue));
}.

(** The fields of [Transactions] that [getHistory] uses. *)
Record Transactions := {
  query : EthProviderWrapper;
  getFiatValue : Settled JSValue;
}.

Inductive QueryEvent :=
| EthBlockNumber
| GetFiatValue
| AlchemyGetAssetTransfers (params : AssetTransfersParams)
| EthGetTransactionByHash (h : string)
| ConsoleError.

(** [parseInt] and the imported [formatTransaction], which may throw. *)
Class HistoryLib := {
  parseInt : string -> JSNumber;
  formatTransaction :
    gmap string JSValue -> JSValue -> Settled (gmap string JSValue);
}.

(** [{ local: false, ...transaction }]; spreading [null] adds nothing. *)
Definition withLocalFalse (transaction : option (gmap string JSValue))
    : gmap string JSValue :=
  match transaction with
  | Some t => t ∪ {[ "local" := "false" ]}
  | None => {[ "local" := "false" ]}
  end.

(** [transfers || []] *)
Definition orEmpty (ts : option (list HistoryTransfer)) : list HistoryTransfer :=
  match ts with
  | Some l => l
  | None => []
  end.

Section History.
Context `{HistoryLib}.
Variable this : Transactions.

(** Lines 37-39: the comparator. *)
Definition byBlockNum (txA txB : HistoryTransfer) : JSNumber :=
  minus (parseInt (blockNum txA)) (parseInt (blockNum txB)).

(** Lines 39-46: what is done for each transfer. *)
Definition fetchAndFormat (fiatValue : JSValue) (transfer : HistoryTransfer)
    : Task QueryEvent (option (gmap string JSValue)) :=
  tryCatch
    (do* transaction :=
       ask (EthGetTransactionByHash (hash transfer))
           (eth_getTransactionByHash (query this) (hash transfer)) in
     (formatTransaction (withLocalFalse transaction) fiatValue, []))
    [ConsoleError].

(** [(ptx) => transactions.push(ptx.value)] *)
Definition valueOf {A} (ptx : Settled (option A)) : option A :=
  match ptx with
  | Fulfilled v => v
  | Rejected => None
  end.

(** Lines 13-52. *)
Definition getHistory (address : string) (toBlock' : option string)
    : Task QueryEvent (list (option (gmap string JSValue))) :=
  let toBlock'' := match toBlock' with Some b => b | None => "latest" end in
  do* head := ask EthBlockNumber (eth_blockNumber (query this)) in
  let blockNumer := parseInt head in
  do* fiatValue := ask GetFiatValue (getFiatValue this) in
  let fromBlock' := fromBlockTag blockNumer in
  let toAddress' := address in
  let fromAddress' := address in
  (* get transactions to the address *)
  let toParams :=
    {| fromBlock := fromBlock'; toBlock := toBlock'';
       toAddress := Some toAddress'; fromAddress := None;
       excludeZeroValue := false |} in
  do* toTransfers := ask (AlchemyGetAssetTransfers toParams)
                       (alchemy_getAssetTransfers (query this) toParams) in
  (* get transactions from the adress *)
  let fromParams :=
    {| fromBlock := fromBlock'; toBlock := toBlock'';
       toAddress := None; fromAddress := Some fromAddress';
       excludeZeroValue := false |} in
  do* fromTransfers := ask (AlchemyGetAssetTransfers fromParams)
                         (alchemy_getAssetTransfers (query this) fromParams) in
  (* get acctual transaction data for all transactions *)
  do* resolvedTxs :=
    settleAll
      (map (fetchAndFormat fiatValue)
         (arraySort byBlockNum
            (orEmpty (transfers toTransfers) ++
             orEmpty (transfers fromTransfers)))) in
  (* prepare final list *)
  finish (map valueOf resolvedTxs).
End History.

(** The transactions a history asked for, in the order asked. *)
Definition requestedHashes (events : list QueryEvent) : list string :=
  flat_map (fun e => match e with
                     | EthGetTransactionByHash h => [h]
                     | _ => []
                     end) events.

(** What the history holds for one transfer: the formatted transaction, or
    undefined when fetching or formatting failed. *)
Definition historyEntry `{HistoryLib} (this : Transactions)
    (fiatValue : JSValue) (transfer : HistoryTransfer)
    : option (gmap string JSValue) :=
  match eth_getTransactionByHash (query this) (hash transfer) with
  | Fulfilled transaction =>
      match formatTransaction (withLocalFalse transaction) fiatValue with
      | Fulfilled formatted => Some formatted
      | Rejected => None
      end
  | Rejected => None
  end.

(** The block number of a transfer, when [parseInt] reads one. *)
Definition blockNumberOf `{HistoryLib} (t : HistoryTransfer) : option Z :=
  match parseInt (blockNum t) with
  | Num z => Some z
  | NaN => None
  end.

(** Whether a transfer is of block [k]. *)
Definition inBlock `{HistoryLib} (k : Z) (t : HistoryTransfer) : bool :=
  match parseInt (blockNum t) with
  | Num z => Z.eqb z k
  | NaN => false
  end.

(** A transfer whose block is not after another's. *)
Definition notAfter `{HistoryLib} (t1 t2 : HistoryTransfer) : Prop :=
  match parseInt (blockNum t1), parseInt (blockNum t2) with
  | Num a, Num b => a <= b
  | _, _ => False
  end.

(** The query for the transfers to ([incoming]) or from an address. *)
Definition historyParams `{HistoryLib} (head address : string)
    (toBlock' : option string) (incoming : bool) : AssetTransfersParams :=
  {| fromBlock := fromBlockTag (parseInt head);
     toBlock := match toBlock' with Some b => b | None => "latest" end;
     toAddress := if incoming then Some address else None;
     fromAddress := if incoming then None else Some address;
     excludeZeroValue := false |}.

(** The bound on name lookups counts events of one kind. *)
Definition isLookUpName (e : Event) : bool :=
  match e with LookUpName _ _ => true | _ => false end.
Definition isGetBlockData (e : Event) : bool :=
  match e with GetBlockData _ _ => true | _ => false end.
Definition isGetCachedAssets (e : Event) : bool :=
  match e with GetCachedAssets _ => true | _ => false end.

(** The party of a decoded call whose name is looked up. *)
Definition decodedParty (t : ERC20Tx) : string :=
  match t with
  | Transfer to _ => to
  | TransferFrom _ to _ => to
  | Approve spender _ => spender
  end.

(** The name an annotation holds, whatever it is called in its variant. *)
Definition resolvedName (a : TransactionAnnotation) : option string :=
  match detail a with
  | ContractDeployment => None
  | AssetTransfer _ _ n _ => n
  | AssetApproval _ n _ => n
  | ContractInteraction n => n
  end.


(** ** More of the small world *)

Module MoreFixture.
Import Fixture.

(** A contract deployment whose receipt has the logs of
    [transferWithLogs]. *)
Definition deploymentWithLogs : AnyEVMTransaction :=
  {| tx_from := "0xaaa"; tx_to := None; tx_input := Some "0x6080";
     tx_value := None; tx_blockHash := Some "0xb10c";
     tx_logs := tx_logs transferWithLogs |}.

(** A deployment that is still pending. *)
Definition pendingDeployment : AnyEVMTransaction :=
  {| tx_from := "0xaaa"; tx_to := None; tx_input := Some "0x6080";
     tx_value := None; tx_blockHash := None; tx_logs := None |}.

(** A chain service that does not answer, and the service on top of it. *)
Definition deafChain : ChainService :=
  {| getBlockData := fun _ _ => Rejected |}.

Definition deafService : EnrichmentService :=
  {| chainService := deafChain; indexingService := indexing;
     nameService := names |}.

(** An indexing service that does not answer. *)
Definition deafIndexing : IndexingService :=
  {| getCachedAssets := fun _ => Rejected |}.

Definition blindService : EnrichmentService :=
  {| chainService := chain; indexingService := deafIndexing;
     nameService := downNames |}.

Definition transferRequest : TransactionSignatureRequest :=
  {| sr_from := "0xaaa"; sr_to := Some "0xa0b8";
     sr_input := Some "0xa9059cbb"; sr_value := None |}.

Definition onMainnet (t : AnyEVMTransaction) : ChainTransaction :=
  {| ct_network := mainnet; ct_fields := t |}.

End MoreFixture.

Module HistoryFixture.

(** [parseInt] on the hexadecimal quantities a node returns. *)
Definition parseHex (s : string) : JSNumber :=
  match s with
  | String "0" (String "x" digits) =>
      match digits, NilEmpty.uint_of_string digits with
      | String _ _, Some u => Num (Z.of_hex_uint u)
      | _, _ => NaN
      end
  | _ => NaN
  end.

(** A formatter that needs the transaction's hash and stamps the fiat
    value on it. *)
Definition lib : HistoryLib :=
  {| parseInt := parseHex;
     formatTransaction := fun t fiat =>
       match t !! "hash" with
       | Some _ => Fulfilled (<["fiat" := fiat]> t)
       | None => Rejected
       end |}.

Definition incoming : list HistoryTransfer :=
  [ {| hash := "0xh1"; blockNum := "0x20" |};
    {| hash := "0xh2"; blockNum := "0x10" |} ].

Definition outgoing : list HistoryTransfer :=
  [ {| hash := "0xh2"; blockNum := "0x10" |};
    {| hash := "0xh3"; blockNum := "0x20" |};
    {| hash := "0xh4"; blockNum := "0x18" |} ].

(** A node at block 40000 (0x9c40); it fails on one hash and knows nothing
    of another. *)
Definition provider : EthProviderWrapper :=
  {| eth_blockNumber := Fulfilled "0x9c40";
     alchemy_getAssetTransfers := fun p =>
       Fulfilled {| transfers := match toAddress p with
                                 | Some _ => Some incoming
                                 | None => Some outgoing
                                 end |};
     eth_getTransactionByHash := fun h =>
       if String.eqb h "0xh2" then Rejected
       else if String.eqb h "0xh4" then Fulfilled None
       else Fulfilled (Some (<["hash" := h]> ∅)) |}.

Definition wallet : Transactions :=
  {| query := provider; getFiatValue := Fulfilled "1800.5" |}.

(** A node of a chain that is 16 blocks old. *)
Definition youngProvider : EthProviderWrapper :=
  {| eth_blockNumber := Fulfilled "0x10";
     alchemy_getAssetTransfers := fun _ => Fulfilled {| transfers := None |};
     eth_getTransactionByHash := fun _ => Fulfilled None |}.

Definition youngWallet : Transactions :=
  {| query := youngProvider; getFiatValue := Fulfilled "1800.5" |}.

(** A wallet whose price feed is down. *)
Definition unpricedWallet : Transactions :=
  {| query := provider; getFiatValue := Rejected |}.

End HistoryFixture.

(** ** Promises: how [andThen], [call] and [allSettled] settle *)

Lemma outcome_andThen {A B} (m : Async A) (k : A -> Async B) :
  outcome (andThen m k) =
  match outcome m with
  | Fulfilled a => outcome (k a)
  | Rejected => Rejected
  end.
Proof. unfold outcome, andThen. destruct (fst m); reflexivity. Qed.

Lemma calls_andThen {A B} (m : Async A) (k : A -> Async B) :
  calls (andThen m k) =
  match outcome m with
  | Fulfilled a => calls m ++ calls (k a)
  | Rejected => calls m
  end.
Proof. unfold calls, outcome, andThen. destruct (fst m); reflexivity. Qed.

Lemma outcome_resolve {A} (a : A) : outcome (resolve a) = Fulfilled a.
Proof. reflexivity. Qed.

Lemma outcome_call {A} e (r : Settled A) : outcome (call e r) = r.
Proof. reflexivity. Qed.

Lemma calls_call {A} e (r : Settled A) : calls (call e r) = [e].
Proof. reflexivity. Qed.

Lemma outcome_allSettled {A} (ps : list (Async A)) :
  outcome (allSettled ps) = Fulfilled (map outcome ps).
Proof. reflexivity. Qed.

Lemma calls_allSettled {A} (ps : list (Async A)) :
  calls (allSettled ps) = concat (map calls ps).
Proof. reflexivity. Qed.

Create Rewrite HintDb async.
#[local] Hint Rewrite @outcome_andThen @calls_andThen @outcome_resolve
  @outcome_call @calls_call @outcome_allSettled @calls_allSettled : async.

(** Case analysis on whatever the goal or a hypothesis branches on. *)
Ltac branch :=
  match goal with
  | |- context [match ?x with _ => _ end] => destruct x eqn:?
  | H : context [match ?x with _ => _ end] |- _ => destruct x eqn:?
  end.

Ltac branches := repeat (branch; simpl in *; try congruence).

(** ** The distinct strings of a list *)

Lemma in_newSet (l : list string) (x : string) : In x (newSet l) <-> In x l.
Proof.
  induction l as [|y l IH]; simpl; [tauto|].
  rewrite filter_In, IH. split.
  - intros [->|[Hx _]]; auto.
  - intros [->|Hx]; auto.
    destruct (String.eqb_spec y x) as [->|Hne]; auto.
Qed.

Lemma NoDup_newSet (l : list string) : List.NoDup (newSet l).
Proof.
  induction l as [|y l IH]; simpl; constructor.
  - rewrite filter_In. intros [_ Hy]. now rewrite String.eqb_refl in Hy.
  - now apply List.NoDup_filter.
Qed.

(** ** The primary annotation *)

Section Primary.
Context `{Lib}.
Variable this : EnrichmentService.
Variables (network : EVMNetwork) (transaction : AnyEVMTransaction).
Variables (desiredDecimals resolvedTime : Z).

Lemma outcome_lookUpNameOrUndefined address :
  outcome (lookUpNameOrUndefined this address network) =
  match lookUpName (nameService this) address network with
  | Fulfilled r => Fulfilled (option_map name r)
  | Rejected => Rejected
  end.
Proof.
  unfold lookUpNameOrUndefined. autorewrite with async.
  destruct (lookUpName _ _ _); reflexivity.
Qed.

Ltac primary :=
  unfold resolvePrimaryAnnotation, classifyBySpec, knownAssets,
    findFungibleAsset, inputAbsentOrEmpty;
  intros;
  repeat (autorewrite with async in *;
          rewrite ?outcome_lookUpNameOrUndefined in *;
          simpl in *; try congruence;
          try match goal with
              | E : Fulfilled _ = Fulfilled _ |- _ =>
                  injection E as E; try subst
              | E : Some _ = Some _ |- _ => injection E as E; try subst
              end;
          try reflexivity; try branch).

(** The primary annotation is never left undefined. *)
Lemma primary_defined block :
  outcome (resolvePrimaryAnnotation this network transaction
             desiredDecimals resolvedTime block) <> Fulfilled None.
Proof. primary. Qed.

(** It is produced whenever the collaborators settle. *)
Lemma primary_fulfils block :
  collaboratorsSettle this ->
  exists a,
    outcome (resolvePrimaryAnnotation this network transaction
               desiredDecimals resolvedTime block) = Fulfilled (Some a).
Proof.
  intros (_ & Hassets & Hnames).
  destruct (outcome (resolvePrimaryAnnotation this network transaction
              desiredDecimals resolvedTime block)) as [[a|]|] eqn:E.
  - now exists a.
  - now apply primary_defined in E.
  - exfalso. revert E. primary;
      solve [ eapply Hnames; eassumption | eapply Hassets; eassumption ].
Qed.

(** Its variant, parties and amount are those of the decision order. *)
Lemma primary_kind block a :
  outcome (resolvePrimaryAnnotation this network transaction
             desiredDecimals resolvedTime block) = Fulfilled (Some a) ->
  kindOf a =
  classifyBySpec (knownAssets this network) network transaction
    desiredDecimals.
Proof. primary. Qed.

(** It carries no subannotations yet. *)
Lemma primary_subannotations block a :
  outcome (resolvePrimaryAnnotation this network transaction
             desiredDecimals resolvedTime block) = Fulfilled (Some a) ->
  subannotations a = None.
Proof. primary. Qed.

(** A recipient's name is awaited in every branch that has a recipient, so
    a name service that rejects makes the primary annotation reject. *)
Lemma primary_rejects_with_names block target :
  tx_to transaction = Some target ->
  (forall a, lookUpName (nameService this) a network = Rejected) ->
  outcome (resolvePrimaryAnnotation this network transaction
             desiredDecimals resolvedTime block) = Rejected.
Proof.
  intros Hto Hdown.
  destruct (outcome (resolvePrimaryAnnotation this network transaction
              desiredDecimals resolvedTime block)) as [ann|] eqn:E;
    [|reflexivity].
  exfalso. revert E. unfold resolvePrimaryAnnotation. rewrite Hto.
  primary;
    match goal with
    | E : lookUpName _ ?a _ = Fulfilled _ |- _ =>
        rewrite (Hdown a) in E; discriminate
    end.
Qed.

(** With input data, it carries the logo of the asset its target
    matches. *)
Lemma primary_logo block a target assets :
  tx_to transaction = Some target ->
  inputAbsentOrEmpty (tx_input transaction) = false ->
  getCachedAssets (indexingService this) network = Fulfilled assets ->
  outcome (resolvePrimaryAnnotation this network transaction
             desiredDecimals resolvedTime block) = Fulfilled (Some a) ->
  transactionLogoURL a = assetLogoURL (findFungibleAsset assets target).
Proof. primary. Qed.
End Primary.

(** ** The sub-annotation pass *)

Section LogPass.
Context `{Lib}.
Variable this : EnrichmentService.
Variable network : EVMNetwork.

Lemma fulfilledEntries_batch (addresses : list string) :
  fulfilledEntries
    (map outcome
       (map (fun address =>
               let* r := call (LookUpName address network)
                           (lookUpName (nameService this) address network) in
               resolve (normalizeEVMAddress address, option_map name r))
            addresses)) =
  flat_map (nameEntry this network) addresses.
Proof.
  unfold fulfilledEntries.
  induction addresses as [|a l IH]; simpl; [reflexivity|].
  rewrite IH. f_equal.
  autorewrite with async. unfold nameEntry, settledName.
  destruct (lookUpName _ a network) as [[r|]|]; reflexivity.
Qed.

Lemma calls_batch (addresses : list string) :
  concat
    (map calls
       (map (fun address =>
               let* r := call (LookUpName address network)
                           (lookUpName (nameService this) address network) in
               resolve (normalizeEVMAddress address, option_map name r))
            addresses)) =
  map (fun address => LookUpName address network) addresses.
Proof.
  induction addresses as [|a l IH]; simpl; [reflexivity|].
  rewrite IH. autorewrite with async.
  destruct (lookUpName _ a network); reflexivity.
Qed.

(** The batch always fulfils. *)
Lemma outcome_resolveNamesByAddress (ls : list ERC20TransferLog) :
  outcome (resolveNamesByAddress this network ls) =
  Fulfilled (fromEntries
               (flat_map (nameEntry this network) (batchAddresses ls))).
Proof.
  unfold resolveNamesByAddress, batchAddresses.
  autorewrite with async. now rewrite fulfilledEntries_batch.
Qed.

(** It asks for each of its addresses once. *)
Lemma calls_resolveNamesByAddress (ls : list ERC20TransferLog) :
  calls (resolveNamesByAddress this network ls) =
  map (fun address => LookUpName address network) (batchAddresses ls).
Proof.
  unfold resolveNamesByAddress, batchAddresses.
  autorewrite with async. simpl. rewrite app_nil_r. apply calls_batch.
Qed.



(** One subannotation per matching log. *)
Lemma length_resolveSubannotations assets names dd now block ls :
  length (resolveSubannotations assets names dd now block ls) =
  length (List.filter (matchesKnownAsset assets) ls).
Proof.
  unfold resolveSubannotations, matchesKnownAsset.
  induction ls as [|l ls IH]; simpl; [reflexivity|].
  rewrite length_app, IH.
  destruct (findFungibleAsset assets (tl_contractAddress l)); reflexivity.
Qed.
End LogPass.

(** ** The resolver as a whole *)

Section Whole.
Context `{Lib}.
Variable this : EnrichmentService.
Variables (network : EVMNetwork) (transaction : AnyEVMTransaction).
Variables (desiredDecimals resolvedTime : Z).

Lemma outcome_resolveTransactionAnnotation :
  outcome (resolveTransactionAnnotation this network transaction
             desiredDecimals resolvedTime) =
  match outcome (fetchBlock this network transaction) with
  | Fulfilled block =>
      match outcome (resolvePrimaryAnnotation this network transaction
                       desiredDecimals resolvedTime block) with
      | Fulfilled txAnnotation =>
          outcome (attachSubannotations this network transaction
                     desiredDecimals resolvedTime block txAnnotation)
      | Rejected => Rejected
      end
  | Rejected => Rejected
  end.
Proof.
  unfold resolveTransactionAnnotation. autorewrite with async.
  destruct (outcome (fetchBlock _ _ _)); [|reflexivity].
  now autorewrite with async.
Qed.

Lemma fetchBlock_fulfils :
  collaboratorsSettle this ->
  exists block, outcome (fetchBlock this network transaction) = Fulfilled block.
Proof.
  intros (Hblock & _). unfold fetchBlock.
  destruct (truthy _); [|now eexists].
  destruct (tx_blockHash transaction) as [h|]; [|now eexists].
  autorewrite with async.
  destruct (getBlockData _ network h) as [b|] eqn:E; [now eexists|].
  now apply Hblock in E.
Qed.

(** What the sub-annotation pass returns when the transaction has logs. *)
Lemma outcome_attachSubannotations block a0 logs assets :
  tx_logs transaction = Some logs ->
  getCachedAssets (indexingService this) network = Fulfilled assets ->
  let decoded := parseLogsForERC20Transfers logs in
  let subs :=
    resolveSubannotations assets
      (fromEntries (flat_map (nameEntry this network)
                      (batchAddresses decoded)))
      desiredDecimals resolvedTime block decoded in
  outcome (attachSubannotations this network transaction desiredDecimals
             resolvedTime block (Some a0)) =
  Fulfilled (Some (if (0 <? length subs)%nat
                   then setSubannotations a0 subs else a0)).
Proof.
  intros Hlogs Hassets decoded subs. unfold attachSubannotations.
  rewrite Hlogs. autorewrite with async. rewrite Hassets.
  autorewrite with async. rewrite outcome_resolveNamesByAddress.
  fold decoded. fold subs. now destruct (0 <? length subs)%nat.
Qed.

(** The pass changes nothing but [subannotations]. *)
Lemma attachSubannotations_keeps block txAnnotation a :
  outcome (attachSubannotations this network transaction desiredDecimals
             resolvedTime block txAnnotation) = Fulfilled (Some a) ->
  exists a0, txAnnotation = Some a0 /\ detail a = detail a0 /\
             transactionLogoURL a = transactionLogoURL a0.
Proof.
  unfold attachSubannotations.
  destruct (tx_logs transaction) as [logs|].
  - autorewrite with async.
    destruct (getCachedAssets _ network) as [assets|]; [|discriminate].
    autorewrite with async. rewrite outcome_resolveNamesByAddress.
    destruct (0 <? length _)%nat.
    + destruct txAnnotation as [a0|]; [|discriminate].
      intros E. injection E as <-. now exists a0.
    + intros E. injection E as ->. now exists a.
  - intros E. injection E as ->. now exists a.
Qed.

Lemma attachSubannotations_defined block a0 :
  outcome (attachSubannotations this network transaction desiredDecimals
             resolvedTime block (Some a0)) <> Fulfilled None.
Proof.
  unfold attachSubannotations.
  destruct (tx_logs transaction) as [logs|]; [|discriminate].
  autorewrite with async.
  destruct (getCachedAssets _ network) as [assets|]; [|discriminate].
  autorewrite with async. rewrite outcome_resolveNamesByAddress.
  destruct (0 <? length _)%nat; discriminate.
Qed.

Lemma attachSubannotations_fulfils block a0 :
  collaboratorsSettle this ->
  exists a,
    outcome (attachSubannotations this network transaction desiredDecimals
               resolvedTime block (Some a0)) = Fulfilled (Some a).
Proof.
  intros (_ & Hassets & _).
  destruct (tx_logs transaction) as [logs|] eqn:Hlogs.
  - destruct (getCachedAssets (indexingService this) network)
      as [assets|] eqn:E; [|now apply Hassets in E].
    eexists. now apply outcome_attachSubannotations with (logs := logs)
                                                          (assets := assets).
  - unfold attachSubannotations. rewrite Hlogs. now eexists.
Qed.

(** The resolver never fulfils with an undefined annotation. *)
Lemma resolve_defined :
  outcome (resolveTransactionAnnotation this network transaction
             desiredDecimals resolvedTime) <> Fulfilled None.
Proof.
  rewrite outcome_resolveTransactionAnnotation.
  destruct (outcome (fetchBlock _ _ _)) as [block|]; [|discriminate].
  destruct (outcome (resolvePrimaryAnnotation _ _ _ _ _ _))
    as [[a0|]|] eqn:E; [| |discriminate].
  - apply attachSubannotations_defined.
  - now apply primary_defined in E.
Qed.

(** It fulfils whenever the collaborators settle. *)
Lemma resolve_fulfils :
  collaboratorsSettle this ->
  exists a,
    outcome (resolveTransactionAnnotation this network transaction
               desiredDecimals resolvedTime) = Fulfilled (Some a).
Proof.
  intros Hs. rewrite outcome_resolveTransactionAnnotation.
  destruct (fetchBlock_fulfils Hs) as [block ->].
  destruct (primary_fulfils this network transaction desiredDecimals
              resolvedTime block Hs) as [a0 ->].
  now apply attachSubannotations_fulfils.
Qed.

(** A name service that rejects makes the resolver reject for every
    transaction that has a recipient. *)
Lemma resolve_rejects_with_names target :
  tx_to transaction = Some target ->
  (forall a, lookUpName (nameService this) a network = Rejected) ->
  outcome (resolveTransactionAnnotation this network transaction
             desiredDecimals resolvedTime) = Rejected.
Proof.
  intros Hto Hdown. rewrite outcome_resolveTransactionAnnotation.
  destruct (outcome (fetchBlock _ _ _)) as [block|]; [|reflexivity].
  now rewrite (primary_rejects_with_names this network transaction
                 desiredDecimals resolvedTime block target Hto Hdown).
Qed.

(** Its annotation is the primary one, up to [subannotations]. *)
Lemma resolve_primary a :
  outcome (resolveTransactionAnnotation this network transaction
             desiredDecimals resolvedTime) = Fulfilled (Some a) ->
  exists block a0,
    outcome (resolvePrimaryAnnotation this network transaction
               desiredDecimals resolvedTime block) = Fulfilled (Some a0) /\
    detail a = detail a0 /\
    transactionLogoURL a = transactionLogoURL a0.
Proof.
  rewrite outcome_resolveTransactionAnnotation.
  destruct (outcome (fetchBlock _ _ _)) as [block|]; [|discriminate].
  destruct (outcome (resolvePrimaryAnnotation _ _ _ _ _ _))
    as [ann|] eqn:E; [|discriminate].
  intros Ha. apply attachSubannotations_keeps in Ha as (a0 & -> & Hd & Hl).
  now exists block, a0.
Qed.
End Whole.

(** ** Properties of the classification *)

Section Classification.
Context `{Lib}.
Variable this : EnrichmentService.
Variables (network : EVMNetwork) (transaction : AnyEVMTransaction).
Variables (desiredDecimals resolvedTime : Z).

(** C1.  The primary annotation is chosen by the first matching rule of the
    decision order: no recipient gives a contract deployment; absent or
    ["0x"] input gives a transfer of the base asset from sender to
    recipient when there is a value and a contract interaction otherwise;
    a decoded [transfer] / [transferFrom] to a known asset gives a transfer
    with the decoded recipient and amount, from the decoded [from] when
    there is one and from the transaction's sender otherwise; a decoded
    [approve] to a known asset gives an approval with the decoded spender
    and amount; anything else gives a contract interaction.  Whenever the
    resolver fulfils, its annotation is the one these rules name, and it
    fulfils whenever the collaborators settle. *)
Theorem classification_follows_decision_order :
  (forall a,
      outcome (resolveTransactionAnnotation this network transaction
                 desiredDecimals resolvedTime) = Fulfilled (Some a) ->
      kindOf a =
      classifyBySpec (knownAssets this network) network transaction
        desiredDecimals) /\
  (collaboratorsSettle this ->
   exists a,
     outcome (resolveTransactionAnnotation this network transaction
                desiredDecimals resolvedTime) = Fulfilled (Some a) /\
     kindOf a =
     classifyBySpec (knownAssets this network) network transaction
       desiredDecimals).
Proof.
  assert (Hkind : forall a,
    outcome (resolveTransactionAnnotation this network transaction
               desiredDecimals resolvedTime) = Fulfilled (Some a) ->
    kindOf a =
    classifyBySpec (knownAssets this network) network transaction
      desiredDecimals).
  { intros a Ha. apply resolve_primary in Ha as (block & a0 & Hp & Hd & _).
    apply primary_kind in Hp. rewrite <- Hp. unfold kindOf. now rewrite Hd. }
  split; [exact Hkind|].
  intros Hs. destruct (resolve_fulfils this network transaction
                         desiredDecimals resolvedTime Hs) as [a Ha].
  exists a. split; [exact Ha|now apply Hkind].
Qed.

(** C2.  Classification is total: the resolver never fulfils with an
    undefined annotation, and when no collaborator rejects it fulfils with
    an annotation of exactly one of the four variants. *)
Theorem classification_is_total :
  outcome (resolveTransactionAnnotation this network transaction
             desiredDecimals resolvedTime) <> Fulfilled None /\
  (collaboratorsSettle this ->
   exists a,
     outcome (resolveTransactionAnnotation this network transaction
                desiredDecimals resolvedTime) = Fulfilled (Some a) /\
     In (annotationType a)
        [ "contract-deployment"; "asset-transfer"; "asset-approval";
          "contract-interaction" ]).
Proof.
  split; [apply resolve_defined|].
  intros Hs. destruct (resolve_fulfils this network transaction
                         desiredDecimals resolvedTime Hs) as [a Ha].
  exists a. split; [exact Ha|].
  unfold annotationType. destruct (detail a); simpl; auto.
Qed.

End Classification.

(** ** Properties of the sub-annotation pass *)

Section Subannotations.
Context `{Lib}.
Variable this : EnrichmentService.
Variable network : EVMNetwork.

(** C3.  When the primary annotation has been produced for a transaction
    with logs, of whose N decoded transfer logs M match a known asset, the
    resolver fulfils with that annotation carrying exactly M
    subannotations when M > 0 and no [subannotations] when M = 0. *)
Theorem subannotations_count transaction desiredDecimals resolvedTime
    logs assets block a0 :
  tx_logs transaction = Some logs ->
  getCachedAssets (indexingService this) network = Fulfilled assets ->
  outcome (fetchBlock this network transaction) = Fulfilled block ->
  outcome (resolvePrimaryAnnotation this network transaction
             desiredDecimals resolvedTime block) = Fulfilled (Some a0) ->
  let decoded := parseLogsForERC20Transfers logs in
  let M := length (List.filter (matchesKnownAsset assets) decoded) in
  (M <= length decoded)%nat /\
  exists a,
    outcome (resolveTransactionAnnotation this network transaction
               desiredDecimals resolvedTime) = Fulfilled (Some a) /\
    detail a = detail a0 /\
    (M = 0%nat -> subannotations a = None) /\
    ((0 < M)%nat ->
     exists subs, subannotations a = Some subs /\ length subs = M).
Proof.
  intros Hlogs Hassets Hblock Hprimary decoded M.
  split; [apply List.filter_length_le|].
  rewrite outcome_resolveTransactionAnnotation, Hblock, Hprimary.
  rewrite (outcome_attachSubannotations this network transaction
             desiredDecimals resolvedTime block a0 logs assets Hlogs Hassets).
  fold decoded.
  set (subs := resolveSubannotations _ _ _ _ _ _).
  assert (Hlen : length subs = M)
    by apply length_resolveSubannotations.
  eexists. split; [reflexivity|].
  apply primary_subannotations in Hprimary.
  destruct (Nat.ltb_spec 0 (length subs)) as [Hpos|Hzero]; simpl.
  - repeat split; [lia|]. intros _. now exists subs.
  - repeat split; [now intros _|lia].
Qed.


(** C6, as the code has it.  The batch asks for a name once per distinct
    recipient address of the decoded transfer logs, whether or not the
    log's contract matched a known asset; these lookups and the read of
    the asset list are all that the sub-annotation pass asks of the
    collaborators. *)
Theorem batch_holds_every_decoded_recipient
    (decoded : list ERC20TransferLog) :
  calls (resolveNamesByAddress this network decoded) =
  map (fun address => LookUpName address network) (batchAddresses decoded) /\
  List.NoDup (batchAddresses decoded) /\
  (forall address,
      In address (batchAddresses decoded) <->
      exists l, In l decoded /\ tl_recipientAddress l = address) /\
  (forall transaction dd now block txAnnotation logs assets,
      tx_logs transaction = Some logs ->
      getCachedAssets (indexingService this) network = Fulfilled assets ->
      decoded = parseLogsForERC20Transfers logs ->
      calls (attachSubannotations this network transaction dd now block
               txAnnotation) =
      GetCachedAssets network ::
      map (fun address => LookUpName address network)
          (batchAddresses decoded)).
Proof.
  split; [apply calls_resolveNamesByAddress|].
  split; [apply NoDup_newSet|]. split.
  - intros address. unfold batchAddresses.
    rewrite in_newSet, in_map_iff. split; intros (l & ? & ?); eauto.
  - intros transaction dd now block txAnnotation logs assets Hlogs Hassets ->.
    unfold attachSubannotations. rewrite Hlogs.
    autorewrite with async. rewrite Hassets.
    autorewrite with async. rewrite outcome_resolveNamesByAddress.
    rewrite calls_resolveNamesByAddress. simpl. f_equal.
    destruct (0 <? length _)%nat; [destruct txAnnotation|];
      apply app_nil_r.
Qed.
End Subannotations.

(** ** Properties of the logo and of typed-data requests *)

Section Logo.
Context `{Lib}.
Variable this : EnrichmentService.
Variables (network : EVMNetwork) (transaction : AnyEVMTransaction).
Variables (desiredDecimals resolvedTime : Z).

(** C7, as the code has it.  For a transaction that has input data (not
    absent and not ["0x"]) and whose target matches a known fungible asset
    whose first match in the list has a logo URL, every annotation the
    resolver produces carries that URL, whatever the input decodes to; in
    particular the contract-interaction fallback for undecodable input
    carries it. *)
Theorem logo_attached_when_input_present target assets url :
  tx_to transaction = Some target ->
  inputAbsentOrEmpty (tx_input transaction) = false ->
  getCachedAssets (indexingService this) network = Fulfilled assets ->
  assetLogoURL (findFungibleAsset assets target) = Some url ->
  (forall a,
      outcome (resolveTransactionAnnotation this network transaction
                 desiredDecimals resolvedTime) = Fulfilled (Some a) ->
      transactionLogoURL a = Some url /\
      (forall input, tx_input transaction = Some input ->
                     parseERC20Tx input = None ->
                     annotationType a = "contract-interaction")) /\
  (collaboratorsSettle this ->
   exists a,
     outcome (resolveTransactionAnnotation this network transaction
                desiredDecimals resolvedTime) = Fulfilled (Some a) /\
     transactionLogoURL a = Some url).
Proof.
  intros Hto Hinput Hassets Hlogo.
  assert (Hall : forall a,
    outcome (resolveTransactionAnnotation this network transaction
               desiredDecimals resolvedTime) = Fulfilled (Some a) ->
    transactionLogoURL a = Some url /\
    (forall input, tx_input transaction = Some input ->
                   parseERC20Tx input = None ->
                   annotationType a = "contract-interaction")).
  { intros a Ha.
    apply resolve_primary in Ha as (block & a0 & Hp & Hd & Hl). split.
    - rewrite Hl, <- Hlogo.
      exact (primary_logo this network transaction desiredDecimals
               resolvedTime block a0 target assets Hto Hinput Hassets Hp).
    - intros input Hi Hparse. apply primary_kind in Hp.
      unfold classifyBySpec in Hp. rewrite Hto, Hinput, Hi, Hparse in Hp.
      unfold kindOf, annotationType in *. rewrite Hd.
      destruct (detail a0); simpl in Hp; congruence. }
  split; [exact Hall|].
  intros Hs. destruct (resolve_fulfils this network transaction
                         desiredDecimals resolvedTime Hs) as [a Ha].
  exists a. split; [exact Ha|now apply Hall].
Qed.
End Logo.

Section TypedData.
Context `{Lib}.
Variable this : EnrichmentService.
Variable signTypedDataRequest : SignTypedDataRequest.

(** C8.  A typed datum of the EIP-2612 shape is annotated as a permit whose
    asset is the known asset at the verifying contract, undefined when
    there is none, and never as unrecognized; a typed datum of any other
    shape is annotated as exactly unrecognized. *)
Theorem permit_or_unrecognized :
  (forall permit assets,
      isEIP2612TypedData (typedData signTypedDataRequest) = Some permit ->
      getCachedAssets (indexingService this) ETHEREUM = Fulfilled assets ->
      outcome (enrichSignTypedDataRequest this signTypedDataRequest) =
      Fulfilled
        {| request := signTypedDataRequest;
           annotation :=
             EIP2612Permit
               (findCorrespondingAsset assets
                  (typedData signTypedDataRequest))
               (spender permit) (permitValue permit) (deadline permit)
               (owner permit) |}) /\
  (isEIP2612TypedData (typedData signTypedDataRequest) = None ->
   outcome (enrichSignTypedDataRequest this signTypedDataRequest) =
   Fulfilled {| request := signTypedDataRequest;
                annotation := Unrecognized |}).
Proof.
  unfold enrichSignTypedDataRequest, enrichEIP2612SignTypedDataRequest.
  split.
  - intros permit assets -> Hassets. autorewrite with async.
    rewrite Hassets. now autorewrite with async.
  - intros ->. now autorewrite with async.
Qed.

(** C9.  The only asset list the typed-data path reads is Ethereum's,
    whatever chain the request's domain names: every read of the asset
    cache is for [ETHEREUM], the result depends on the indexing
    collaborator through that list alone, and a permit's asset is searched
    in that list. *)
Theorem permit_asset_is_sought_on_ethereum :
  (forall n,
      In (GetCachedAssets n)
         (calls (enrichSignTypedDataRequest this signTypedDataRequest)) ->
      n = ETHEREUM) /\
  (forall this',
      getCachedAssets (indexingService this') ETHEREUM =
      getCachedAssets (indexingService this) ETHEREUM ->
      outcome (enrichSignTypedDataRequest this' signTypedDataRequest) =
      outcome (enrichSignTypedDataRequest this signTypedDataRequest)) /\
  (forall permit assets,
      isEIP2612TypedData (typedData signTypedDataRequest) = Some permit ->
      getCachedAssets (indexingService this) ETHEREUM = Fulfilled assets ->
      In (GetCachedAssets ETHEREUM)
         (calls (enrichSignTypedDataRequest this signTypedDataRequest)) /\
      exists enriched,
        outcome (enrichSignTypedDataRequest this signTypedDataRequest) =
        Fulfilled enriched /\
        annotation enriched =
        EIP2612Permit
          (findCorrespondingAsset assets (typedData signTypedDataRequest))
          (spender permit) (permitValue permit) (deadline permit)
          (owner permit)).
Proof.
  unfold enrichSignTypedDataRequest, enrichEIP2612SignTypedDataRequest.
  split; [|split].
  - intros n. autorewrite with async.
    destruct (isEIP2612TypedData _) as [permit|]; autorewrite with async.
    + destruct (getCachedAssets _ ETHEREUM) as [assets|];
        autorewrite with async; simpl; intuition congruence.
    + simpl. intuition congruence.
  - intros this' E. autorewrite with async.
    destruct (isEIP2612TypedData _) as [permit|]; autorewrite with async;
      [|reflexivity].
    rewrite E. reflexivity.
  - intros permit assets Hpermit Hassets. autorewrite with async.
    rewrite Hpermit. autorewrite with async.
    rewrite Hassets. autorewrite with async. split.
    + simpl. auto.
    + eexists. split; reflexivity.
Qed.
End TypedData.

(** ** The resolver on the small world *)

Section Runs.
Import Fixture.

Ltac settled := repeat split; intros; simpl; discriminate.

Lemma classification_follows_decision_order_witness :
  collaboratorsSettle service /\
  exists a,
    outcome (@resolveTransactionAnnotation lib service mainnet
               transferWithLogs 2 1000) = Fulfilled (Some a) /\
    kindOf a =
    @classifyBySpec lib (knownAssets service mainnet) mainnet
      transferWithLogs 2.
Proof.
  split; [settled|].
  apply (proj2 (@classification_follows_decision_order lib service mainnet
                  transferWithLogs 2 1000)).
  settled.
Defined.

Lemma classification_is_total_witness :
  collaboratorsSettle service /\
  exists a,
    outcome (@resolveTransactionAnnotation lib service mainnet
               unknownCall 2 1000) = Fulfilled (Some a) /\
    In (annotationType a)
       [ "contract-deployment"; "asset-transfer"; "asset-approval";
         "contract-interaction" ].
Proof.
  split; [settled|].
  apply (proj2 (@classification_is_total lib service mainnet
                  unknownCall 2 1000)).
  settled.
Defined.


Lemma subannotations_count_witness :
  exists a,
    outcome (@resolveTransactionAnnotation lib flakyService mainnet
               transferWithLogs 2 1000) = Fulfilled (Some a) /\
    exists subs, subannotations a = Some subs /\ length subs = 2%nat.
Proof.
  edestruct (@subannotations_count lib flakyService mainnet
               transferWithLogs 2 1000)
    as (_ & a & Ha & _ & _ & Hpos); try reflexivity.
  exists a. split; [exact Ha|]. apply Hpos. simpl. lia.
Defined.



(** Two spellings of one address are two entries of the batch and one key
    of the map: the name found for one spelling is reported for both. *)
Example spellings_share_a_name :
  batchAddresses twoSpellings = [ "0xBBB"; "0xbbb" ] /\
  settledName (lookUpName (nameService service) "0xBBB" mainnet) = None /\
  exists names,
    outcome (@resolveNamesByAddress lib service mainnet twoSpellings) =
    Fulfilled names /\
    names !! @normalizeEVMAddress lib "0xBBB" = Some "bob.eth".
Proof.
  repeat split. eexists. split; [reflexivity|]. vm_compute. reflexivity.
Qed.

(** C5.  A recipient whose name lookup rejects: the plain send to it is
    not annotated, the resolver rejects; the same address among the
    recipients of the transfer logs is tolerated by the batch, and the
    annotation is produced with that name left out. *)
Theorem rejected_lookup_escapes_the_primary_path :
  lookUpName (nameService flakyService) "0xdead" mainnet = Rejected /\
  outcome (@resolveTransactionAnnotation lib flakyService mainnet
             sendToUnresolvable 2 1000) = Rejected /\
  exists a subs,
    outcome (@resolveTransactionAnnotation lib flakyService mainnet
               transferWithLogs 2 1000) = Fulfilled (Some a) /\
    subannotations a = Some subs /\
    map detail subs =
    [ AssetTransfer "0xaaa" "0xbbb" (Some "bob.eth")
        (@enrichAssetAmountWithDecimalValues lib
           {| asset := USDC; amount := 1 |} 2);
      AssetTransfer "0xaaa" "0xdead" None
        (@enrichAssetAmountWithDecimalValues lib
           {| asset := USDC; amount := 1 |} 2) ].
Proof.
  split; [reflexivity|]. split; [reflexivity|].
  eexists _, _. split; [reflexivity|]. split; reflexivity.
Qed.

Example down_name_service_is_fatal :
  outcome (@resolveTransactionAnnotation lib downService mainnet
             unknownCall 2 1000) = Rejected.
Proof.
  apply resolve_rejects_with_names with (target := "0xa0b8"); reflexivity.
Qed.

(** C6, refuted as stated: the recipient of a transfer log whose contract
    is no known asset is looked up all the same. *)
Lemma batch_is_not_matched_recipients :
  ~ @batchIsMatchedRecipients lib service mainnet [ETH; USDC]
      decodedTransfers.
Proof.
  intros Hclaim. destruct (Hclaim "0xeee") as [Hasked _].
  destruct Hasked as (l & Hl & Hmatch & Hrecipient).
  - simpl. auto.
  - simpl in Hl.
    repeat match goal with
           | D : _ \/ _ |- _ => destruct D
           | F : False |- _ => destruct F
           end; subst; vm_compute in Hmatch, Hrecipient; discriminate.
Qed.

Lemma batch_holds_every_decoded_recipient_witness :
  calls (@attachSubannotations lib service mainnet transferWithLogs 2 1000
           None None) =
  [ GetCachedAssets mainnet; LookUpName "0xbbb" mainnet;
    LookUpName "0xeee" mainnet; LookUpName "0xdead" mainnet ].
Proof.
  destruct (@batch_holds_every_decoded_recipient lib service mainnet
              decodedTransfers) as (_ & _ & _ & Hpass).
  exact (Hpass transferWithLogs 2 1000 None None _ [ETH; USDC]
           eq_refl eq_refl eq_refl).
Defined.

(** C7, refuted as stated: a plain send to the address of a known asset
    that has a logo is annotated without the logo. *)
Lemma logo_is_not_always_attached :
  ~ @logoAlwaysAttached lib service mainnet zeroValueSend 2 1000.
Proof.
  intros Hclaim.
  specialize (Hclaim "0xa0b8" [ETH; USDC] "https://logos/usdc.png" _
                eq_refl eq_refl eq_refl eq_refl).
  discriminate Hclaim.
Qed.

Lemma logo_attached_when_input_present_witness :
  exists a,
    outcome (@resolveTransactionAnnotation lib service mainnet
               unknownCall 2 1000) = Fulfilled (Some a) /\
    transactionLogoURL a = Some "https://logos/usdc.png" /\
    annotationType a = "contract-interaction".
Proof.
  destruct (@logo_attached_when_input_present lib service mainnet
              unknownCall 2 1000 "0xa0b8" [ETH; USDC]
              "https://logos/usdc.png" eq_refl eq_refl eq_refl eq_refl)
    as (Hall & Hsome).
  destruct Hsome as (a & Ha & Hlogo); [settled|].
  exists a. split; [exact Ha|]. split; [exact Hlogo|].
  exact (proj2 (Hall a Ha) "0xdeadbeef" eq_refl eq_refl).
Defined.

Lemma permit_or_unrecognized_witness :
  outcome (@enrichSignTypedDataRequest lib service
             (permitRequest 1 "0xffff")) =
  Fulfilled {| request := permitRequest 1 "0xffff";
               annotation := EIP2612Permit None "0xccc" 10 99 "0xaaa" |} /\
  outcome (@enrichSignTypedDataRequest lib service mailRequest) =
  Fulfilled {| request := mailRequest; annotation := Unrecognized |}.
Proof.
  split.
  - exact (proj1 (@permit_or_unrecognized lib service
                    (permitRequest 1 "0xffff")) _ [ETH; USDC]
             eq_refl eq_refl).
  - exact (proj2 (@permit_or_unrecognized lib service mailRequest)
             eq_refl).
Defined.

(** A permit whose domain names chain 137 is matched against Ethereum's
    list. *)
Lemma permit_asset_is_sought_on_ethereum_witness :
  In (GetCachedAssets mainnet)
     (calls (@enrichSignTypedDataRequest lib service
               (permitRequest 137 "0xA0B8"))) /\
  exists enriched,
    outcome (@enrichSignTypedDataRequest lib service
               (permitRequest 137 "0xA0B8")) = Fulfilled enriched /\
    annotation enriched = EIP2612Permit (Some USDC) "0xccc" 10 99 "0xaaa".
Proof.
  exact (proj2 (proj2 (@permit_asset_is_sought_on_ethereum lib service
                         (permitRequest 137 "0xA0B8"))) _ [ETH; USDC]
           eq_refl eq_refl).
Defined.
End Runs.

(** ** Traces of any kind *)

Lemma settles_thenDo {E A B} (m : Task E A) (k : A -> Task E B) :
  settles (thenDo m k) =
  match settles m with
  | Fulfilled a => settles (k a)
  | Rejected => Rejected
  end.
Proof. unfold settles, thenDo. destruct (fst m); reflexivity. Qed.

Lemma trace_thenDo {E A B} (m : Task E A) (k : A -> Task E B) :
  trace (thenDo m k) =
  match settles m with
  | Fulfilled a => trace m ++ trace (k a)
  | Rejected => trace m
  end.
Proof. unfold trace, settles, thenDo. destruct (fst m); reflexivity. Qed.

Lemma settles_ask {E A} (e : E) (r : Settled A) : settles (ask e r) = r.
Proof. reflexivity. Qed.

Lemma trace_ask {E A} (e : E) (r : Settled A) : trace (ask e r) = [e].
Proof. reflexivity. Qed.

Lemma settles_finish {E A} (a : A) : settles (@finish E A a) = Fulfilled a.
Proof. reflexivity. Qed.

Lemma trace_finish {E A} (a : A) : trace (@finish E A a) = [].
Proof. reflexivity. Qed.

Lemma settles_awaited {A} (m : Async A) : settles (awaited m) = outcome m.
Proof. reflexivity. Qed.

Lemma trace_awaited {A} (m : Async A) :
  trace (awaited m) = map Asked (calls m).
Proof. reflexivity. Qed.

Create Rewrite HintDb task.
#[local] Hint Rewrite @settles_thenDo @trace_thenDo @settles_ask @trace_ask
  @settles_finish @trace_finish @settles_awaited @trace_awaited : task.

Lemma no_emission_among_asked (events : list Event) :
  (forall r, ~ In (EmitEnrichedSignTypedDataRequest r) events) ->
  List.filter isEmission (map Asked events) = [].
Proof.
  induction events as [|e l IH]; intros Hno; simpl; [reflexivity|].
  destruct e; simpl; try (apply IH; intros r Hr; apply (Hno r); simpl; auto).
  exfalso. apply (Hno r). simpl. auto.
Qed.

(** ** What the resolver asks of its collaborators *)

Section Asking.
Context `{Lib}.
Variable this : EnrichmentService.
Variables (network : EVMNetwork) (transaction : AnyEVMTransaction).
Variables (desiredDecimals resolvedTime : Z).

Lemma calls_lookUpNameOrUndefined address :
  calls (lookUpNameOrUndefined this address network) =
  [LookUpName address network].
Proof.
  unfold lookUpNameOrUndefined. autorewrite with async.
  destruct (lookUpName _ _ _); reflexivity.
Qed.

Lemma calls_resolveTransactionAnnotation :
  calls (resolveTransactionAnnotation this network transaction
           desiredDecimals resolvedTime) =
  match outcome (fetchBlock this network transaction) with
  | Fulfilled block =>
      calls (fetchBlock this network transaction) ++
      match outcome (resolvePrimaryAnnotation this network transaction
                       desiredDecimals resolvedTime block) with
      | Fulfilled txAnnotation =>
          calls (resolvePrimaryAnnotation this network transaction
                   desiredDecimals resolvedTime block) ++
          calls (attachSubannotations this network transaction
                   desiredDecimals resolvedTime block txAnnotation)
      | Rejected =>
          calls (resolvePrimaryAnnotation this network transaction
                   desiredDecimals resolvedTime block)
      end
  | Rejected => calls (fetchBlock this network transaction)
  end.
Proof.
  unfold resolveTransactionAnnotation. autorewrite with async.
  destruct (outcome (fetchBlock _ _ _)); [|reflexivity].
  now autorewrite with async.
Qed.

(** The resolver emits nothing itself. *)
Lemma resolver_emits_nothing r :
  ~ In (EmitEnrichedSignTypedDataRequest r)
       (calls (resolveTransactionAnnotation this network transaction
                 desiredDecimals resolvedTime)).
Proof.
  rewrite calls_resolveTransactionAnnotation.
  assert (Hblock : ~ In (EmitEnrichedSignTypedDataRequest r)
                        (calls (fetchBlock this network transaction))).
  { unfold fetchBlock. destruct (truthy _); [|simpl; tauto].
    destruct (tx_blockHash transaction); simpl; intuition congruence. }
  assert (Hprimary : forall block,
    ~ In (EmitEnrichedSignTypedDataRequest r)
         (calls (resolvePrimaryAnnotation this network transaction
                   desiredDecimals resolvedTime block))).
  { intros block. unfold resolvePrimaryAnnotation.
    repeat (autorewrite with async; rewrite ?calls_lookUpNameOrUndefined;
            rewrite ?outcome_lookUpNameOrUndefined;
            simpl; try (intuition congruence); try branch). }
  assert (Hattach : forall block ann,
    ~ In (EmitEnrichedSignTypedDataRequest r)
         (calls (attachSubannotations this network transaction
                   desiredDecimals resolvedTime block ann))).
  { intros block ann. unfold attachSubannotations.
    destruct (tx_logs transaction) as [logs|]; [|simpl; tauto].
    autorewrite with async.
    destruct (getCachedAssets _ network) as [assets|];
      [|simpl; intuition congruence].
    autorewrite with async. rewrite outcome_resolveNamesByAddress.
    rewrite calls_resolveNamesByAddress.
    intros Hin. rewrite !in_app_iff in Hin.
    destruct Hin as [Hin|[Hin|Hin]].
    - simpl in Hin. intuition congruence.
    - apply in_map_iff in Hin as (a & E & _). discriminate.
    - destruct (0 <? length _)%nat; [destruct ann|]; simpl in Hin; tauto. }
  destruct (outcome (fetchBlock _ _ _)) as [block|]; [|exact Hblock].
  rewrite in_app_iff. intros [Hin|Hin]; [now apply Hblock in Hin|].
  destruct (outcome (resolvePrimaryAnnotation _ _ _ _ _ _)) as [ann|];
    [|now apply Hprimary in Hin].
  rewrite in_app_iff in Hin. destruct Hin as [Hin|Hin];
    [now apply Hprimary in Hin|now apply Hattach in Hin].
Qed.
End Asking.

Ltac primary_cases :=
  unfold resolvePrimaryAnnotation, findFungibleAsset; intros;
  repeat (autorewrite with async in *;
          rewrite ?outcome_lookUpNameOrUndefined in *;
          rewrite ?calls_lookUpNameOrUndefined in *;
          simpl in *; try congruence;
          try match goal with
              | E : Fulfilled _ = Fulfilled _ |- _ =>
                  injection E as E; try subst
              | E : Some _ = Some _ |- _ => injection E as E; try subst
              end;
          try reflexivity; try branch).

(** ** Timestamps, the block and the logs *)

Section Stamps.
Context `{Lib}.
Variable this : EnrichmentService.
Variables (network : EVMNetwork) (transaction : AnyEVMTransaction).
Variables (desiredDecimals resolvedTime : Z).

Lemma primary_stamps block a :
  outcome (resolvePrimaryAnnotation this network transaction
             desiredDecimals resolvedTime block) = Fulfilled (Some a) ->
  timestamp a = resolvedTime /\ blockTimestamp a = blockTimestampOf block.
Proof. primary_cases; split; reflexivity. Qed.

(** How the resolver's annotation comes about. *)
Lemma resolve_steps a :
  outcome (resolveTransactionAnnotation this network transaction
             desiredDecimals resolvedTime) = Fulfilled (Some a) ->
  exists block a0,
    outcome (fetchBlock this network transaction) = Fulfilled block /\
    outcome (resolvePrimaryAnnotation this network transaction
               desiredDecimals resolvedTime block) = Fulfilled (Some a0) /\
    outcome (attachSubannotations this network transaction desiredDecimals
               resolvedTime block (Some a0)) = Fulfilled (Some a).
Proof.
  rewrite outcome_resolveTransactionAnnotation.
  destruct (outcome (fetchBlock _ _ _)) as [block|] eqn:Eb; [|discriminate].
  destruct (outcome (resolvePrimaryAnnotation _ _ _ _ _ _))
    as [ann|] eqn:Ep; [|discriminate].
  intros Ha. destruct (attachSubannotations_keeps _ _ _ _ _ _ _ _ Ha)
    as (a0 & -> & _).
  now exists block, a0.
Qed.

(** What the sub-annotation pass makes of the primary annotation. *)
Lemma attach_cases block a0 a :
  outcome (attachSubannotations this network transaction desiredDecimals
             resolvedTime block (Some a0)) = Fulfilled (Some a) ->
  match tx_logs transaction with
  | None => a = a0
  | Some logs =>
      exists assets,
        getCachedAssets (indexingService this) network = Fulfilled assets /\
        let decoded := parseLogsForERC20Transfers logs in
        let subs :=
          resolveSubannotations assets
            (fromEntries (flat_map (nameEntry this network)
                            (batchAddresses decoded)))
            desiredDecimals resolvedTime block decoded in
        a = if (0 <? length subs)%nat then setSubannotations a0 subs else a0
  end.
Proof.
  destruct (tx_logs transaction) as [logs|] eqn:Hlogs.
  - destruct (getCachedAssets (indexingService this) network)
      as [assets|] eqn:Hassets.
    + rewrite (outcome_attachSubannotations this network transaction
                 desiredDecimals resolvedTime block a0 logs assets
                 Hlogs Hassets).
      intros E. injection E as <-. now exists assets.
    + unfold attachSubannotations. rewrite Hlogs. autorewrite with async.
      rewrite Hassets. discriminate.
  - unfold attachSubannotations. rewrite Hlogs. simpl. congruence.
Qed.

Lemma in_resolveSubannotations assets names block decoded s :
  In s (resolveSubannotations assets names desiredDecimals resolvedTime
          block decoded) ->
  timestamp s = resolvedTime /\
  blockTimestamp s = blockTimestampOf block /\
  transactionLogoURL s = None /\
  subannotations s = None /\
  annotationType s = "asset-transfer".
Proof.
  unfold resolveSubannotations. intros Hs.
  apply in_flat_map in Hs as (l & _ & Hs).
  destruct (findFungibleAsset assets (tl_contractAddress l));
    [|contradiction].
  destruct Hs as [<-|[]]. repeat split.
Qed.

(** X1.  The annotation is stamped with the resolution time, and each of
    its subannotations carries the same resolution time and the same block
    timestamp as the annotation; a subannotation is an asset transfer that
    has no logo and no subannotations of its own. *)
Theorem subannotations_share_the_stamps a :
  outcome (resolveTransactionAnnotation this network transaction
             desiredDecimals resolvedTime) = Fulfilled (Some a) ->
  timestamp a = resolvedTime /\
  forall subs s,
    subannotations a = Some subs -> In s subs ->
    timestamp s = resolvedTime /\
    blockTimestamp s = blockTimestamp a /\
    transactionLogoURL s = None /\
    subannotations s = None /\
    annotationType s = "asset-transfer".
Proof.
  intros Ha. apply resolve_steps in Ha as (block & a0 & _ & Hp & Ha).
  pose proof (primary_stamps _ _ Hp) as [Ht Hb].
  pose proof (primary_subannotations _ _ _ _ _ _ _ Hp) as Hnone.
  apply attach_cases in Ha.
  destruct (tx_logs transaction) as [logs|].
  - destruct Ha as (assets & _ & Ha). simpl in Ha.
    destruct (0 <? length _)%nat; subst a.
    + split; [exact Ht|]. simpl. intros subs s E Hs. injection E as <-.
      apply in_resolveSubannotations in Hs. rewrite Hb. exact Hs.
    + split; [exact Ht|]. intros subs s E. congruence.
  - subst a. split; [exact Ht|]. intros subs s E. congruence.
Qed.


(** X3.  A block fetch that rejects is fatal: the resolver rejects, having
    asked nothing else. *)
Theorem block_fetch_rejection_is_fatal h :
  tx_blockHash transaction = Some h -> h <> "" ->
  getBlockData (chainService this) network h = Rejected ->
  outcome (resolveTransactionAnnotation this network transaction
             desiredDecimals resolvedTime) = Rejected /\
  calls (resolveTransactionAnnotation this network transaction
           desiredDecimals resolvedTime) = [GetBlockData network h].
Proof.
  intros Hh Hne Hrej.
  assert (Hfetch : fetchBlock this network transaction =
                   (Rejected, [GetBlockData network h])).
  { unfold fetchBlock, truthy. rewrite Hh.
    destruct (String.eqb_spec h ""); [contradiction|].
    simpl. unfold call. now rewrite Hrej. }
  rewrite outcome_resolveTransactionAnnotation,
    calls_resolveTransactionAnnotation, Hfetch. split; reflexivity.
Qed.
End Stamps.

(** ** The logs and the primary classification *)

Section Logs.
Context `{Lib}.
Variable this : EnrichmentService.
Variable network : EVMNetwork.
Variables (desiredDecimals resolvedTime : Z).



Lemma fetchBlock_same_hash t t' :
  tx_blockHash t = tx_blockHash t' ->
  fetchBlock this network t = fetchBlock this network t'.
Proof. unfold fetchBlock. now intros ->. Qed.

(** X5.  The sub-annotation pass does not depend on the primary
    classification: two transactions that have the same logs and name the
    same block get the same subannotations, whatever their recipients,
    input data and values are. *)
Theorem subannotations_do_not_depend_on_the_primary t t' a a' :
  tx_logs t = tx_logs t' ->
  tx_blockHash t = tx_blockHash t' ->
  outcome (resolveTransactionAnnotation this network t
             desiredDecimals resolvedTime) = Fulfilled (Some a) ->
  outcome (resolveTransactionAnnotation this network t'
             desiredDecimals resolvedTime) = Fulfilled (Some a') ->
  subannotations a = subannotations a'.
Proof.
  intros Hlogs Hhash Ha Ha'.
  apply resolve_steps in Ha as (block & a0 & Hb & Hp & Ha).
  apply resolve_steps in Ha' as (block' & a0' & Hb' & Hp' & Ha').
  rewrite (fetchBlock_same_hash t t' Hhash), Hb' in Hb.
  injection Hb as <-.
  apply primary_subannotations in Hp, Hp'.
  apply attach_cases in Ha, Ha'. rewrite Hlogs in Ha.
  destruct (tx_logs t') as [logs|].
  - destruct Ha as (assets & Hassets & Ha).
    destruct Ha' as (assets' & Hassets' & Ha').
    rewrite Hassets in Hassets'. injection Hassets' as <-.
    simpl in Ha, Ha'. destruct (0 <? length _)%nat; subst a a'; simpl;
      congruence.
  - subst a a'. congruence.
Qed.
End Logs.

(** ** What is asked, and how often *)

Section Economy.
Context `{Lib}.
Variable this : EnrichmentService.
Variables (network : EVMNetwork) (transaction : AnyEVMTransaction).
Variables (desiredDecimals resolvedTime : Z).

Lemma lookups_of_primary block :
  (length (List.filter isLookUpName
             (calls (resolvePrimaryAnnotation this network transaction
                       desiredDecimals resolvedTime block))) <= 1)%nat /\
  (length (List.filter isGetCachedAssets
             (calls (resolvePrimaryAnnotation this network transaction
                       desiredDecimals resolvedTime block))) <= 1)%nat.
Proof. primary_cases; split; simpl; lia. Qed.

Lemma lookups_of_attach block txAnnotation :
  (length (List.filter isLookUpName
             (calls (attachSubannotations this network transaction
                       desiredDecimals resolvedTime block txAnnotation))) <=
   length (match tx_logs transaction with
           | Some logs => parseLogsForERC20Transfers logs
           | None => []
           end))%nat /\
  (length (List.filter isGetCachedAssets
             (calls (attachSubannotations this network transaction
                       desiredDecimals resolvedTime block txAnnotation))) <=
   1)%nat.
Proof.
  unfold attachSubannotations.
  destruct (tx_logs transaction) as [logs|]; [|simpl; lia].
  assert (Hcount : forall l,
    List.filter isLookUpName
      (map (fun address => LookUpName address network) l) =
    map (fun address => LookUpName address network) l /\
    List.filter isGetCachedAssets
      (map (fun address => LookUpName address network) l) = []).
  { induction l as [|x l [IH1 IH2]]; simpl; [auto|]. now rewrite IH1, IH2. }
  assert (Hbatch : (length (batchAddresses (parseLogsForERC20Transfers logs))
                    <= length (parseLogsForERC20Transfers logs))%nat).
  { unfold batchAddresses.
    rewrite <- (length_map tl_recipientAddress
                  (parseLogsForERC20Transfers logs)).
    generalize (map tl_recipientAddress (parseLogsForERC20Transfers logs)).
    induction l as [|x l IH]; simpl; [lia|].
    pose proof (List.filter_length_le
                  (fun y => negb (String.eqb x y)) (newSet l)). lia. }
  autorewrite with async.
  destruct (getCachedAssets _ network) as [assets|]; [|simpl; lia].
  autorewrite with async. rewrite outcome_resolveNamesByAddress.
  rewrite calls_resolveNamesByAddress, !List.filter_app, !length_app.
  destruct (Hcount (batchAddresses (parseLogsForERC20Transfers logs)))
    as [-> ->].
  rewrite length_map.
  destruct (0 <? length _)%nat; [destruct txAnnotation|]; simpl; lia.
Qed.

(** X6.  One resolution asks for at most one name besides the batch, whose
    size is at most the number of decoded transfer logs, and reads the
    asset list at most twice. *)
Theorem lookups_are_bounded :
  (length (List.filter isLookUpName
             (calls (resolveTransactionAnnotation this network transaction
                       desiredDecimals resolvedTime))) <=
   1 + length (match tx_logs transaction with
               | Some logs => parseLogsForERC20Transfers logs
               | None => []
               end))%nat /\
  (length (List.filter isGetCachedAssets
             (calls (resolveTransactionAnnotation this network transaction
                       desiredDecimals resolvedTime))) <= 2)%nat.
Proof.
  rewrite calls_resolveTransactionAnnotation.
  assert (Hblock :
    List.filter isLookUpName (calls (fetchBlock this network transaction))
      = [] /\
    List.filter isGetCachedAssets
      (calls (fetchBlock this network transaction)) = []).
  { unfold fetchBlock. destruct (truthy _); [|split; reflexivity].
    destruct (tx_blockHash transaction); split; reflexivity. }
  destruct Hblock as [Hb1 Hb2].
  destruct (outcome (fetchBlock _ _ _)) as [block|];
    [|rewrite Hb1, Hb2; simpl; lia].
  pose proof (lookups_of_primary block) as [Hp1 Hp2].
  destruct (outcome (resolvePrimaryAnnotation _ _ _ _ _ _)) as [ann|].
  - pose proof (lookups_of_attach block ann) as [Ha1 Ha2].
    rewrite !List.filter_app, !length_app, Hb1, Hb2. simpl. lia.
  - rewrite !List.filter_app, !length_app, Hb1, Hb2. simpl. lia.
Qed.
End Economy.

(** ** Whose name is looked up *)

Section Names.
Context `{Lib}.
Variable this : EnrichmentService.
Variables (network : EVMNetwork) (transaction : AnyEVMTransaction).
Variables (desiredDecimals resolvedTime : Z).

(** X7.  For a decoded transfer or approval to a known asset, the one name
    the primary classification asks for is that of the decoded recipient or
    spender, not that of the token contract the transaction is sent to;
    the annotation holds the name found, or none when the lookup found
    none, and the classification rejects when the lookup does. *)
Theorem decoded_party_is_named target input decoded assets known block :
  tx_to transaction = Some target ->
  tx_input transaction = Some input -> input <> "0x" ->
  getCachedAssets (indexingService this) network = Fulfilled assets ->
  findFungibleAsset assets target = Some known ->
  parseERC20Tx input = Some decoded ->
  calls (resolvePrimaryAnnotation this network transaction desiredDecimals
           resolvedTime block) =
  [ GetCachedAssets network; LookUpName (decodedParty decoded) network ] /\
  match lookUpName (nameService this) (decodedParty decoded) network with
  | Fulfilled found =>
      exists a,
        outcome (resolvePrimaryAnnotation this network transaction
                   desiredDecimals resolvedTime block) =
        Fulfilled (Some a) /\
        resolvedName a = option_map name found
  | Rejected =>
      outcome (resolvePrimaryAnnotation this network transaction
                 desiredDecimals resolvedTime block) = Rejected
  end.
Proof.
  intros Hto Hinput Hne Hassets Hfind Hparse.
  unfold resolvePrimaryAnnotation. rewrite Hto, Hinput.
  destruct (String.eqb_spec input "0x") as [|_]; [contradiction|].
  autorewrite with async. rewrite Hassets. autorewrite with async.
  rewrite Hfind, Hparse.
  destruct decoded; simpl; autorewrite with async;
    rewrite calls_lookUpNameOrUndefined, outcome_lookUpNameOrUndefined;
    (split; [destruct (lookUpName _ _ _); reflexivity|]);
    destruct (lookUpName _ _ _) as [found|]; autorewrite with async;
    try reflexivity; eexists; split; reflexivity.
Qed.

(** X8.  A contract deployment is annotated without asking for any name or
    asset: when the transaction has no recipient and no logs, the resolver
    asks for the block at most and fulfils with a contract deployment,
    whatever the name and indexing services would answer. *)
Theorem deployment_asks_for_nothing block :
  tx_to transaction = None ->
  tx_logs transaction = None ->
  outcome (fetchBlock this network transaction) = Fulfilled block ->
  resolveTransactionAnnotation this network transaction desiredDecimals
    resolvedTime =
  (Fulfilled (Some {| timestamp := resolvedTime;
                      blockTimestamp := blockTimestampOf block;
                      transactionLogoURL := None;
                      subannotations := None;
                      detail := ContractDeployment |}),
   calls (fetchBlock this network transaction)).
Proof.
  intros Hto Hlogs Hblock.
  apply injective_projections.
  - change (outcome (resolveTransactionAnnotation this network transaction
                       desiredDecimals resolvedTime) = Fulfilled (Some
              {| timestamp := resolvedTime;
                 blockTimestamp := blockTimestampOf block;
                 transactionLogoURL := None; subannotations := None;
                 detail := ContractDeployment |})).
    rewrite outcome_resolveTransactionAnnotation, Hblock.
    unfold resolvePrimaryAnnotation, attachSubannotations.
    now rewrite Hto, Hlogs.
  - change (calls (resolveTransactionAnnotation this network transaction
                     desiredDecimals resolvedTime) =
            calls (fetchBlock this network transaction)).
    rewrite calls_resolveTransactionAnnotation, Hblock.
    unfold resolvePrimaryAnnotation, attachSubannotations.
    rewrite Hto, Hlogs. simpl. now rewrite app_nil_r.
Qed.

(** X9.  A transaction without input data never reads the asset list for
    its primary annotation and never gets a logo: with absent or ["0x"]
    input and no logs, no asset read is among the calls, the one name asked
    for is the recipient's, and any annotation produced has no
    [transactionLogoURL] and holds the name found for the recipient. *)
Theorem plain_send_reads_no_assets target :
  tx_to transaction = Some target ->
  inputAbsentOrEmpty (tx_input transaction) = true ->
  tx_logs transaction = None ->
  List.filter isGetCachedAssets
    (calls (resolveTransactionAnnotation this network transaction
              desiredDecimals resolvedTime)) = [] /\
  List.filter isLookUpName
    (calls (resolveTransactionAnnotation this network transaction
              desiredDecimals resolvedTime)) =
  match outcome (fetchBlock this network transaction) with
  | Fulfilled _ => [LookUpName target network]
  | Rejected => []
  end /\
  forall a,
    outcome (resolveTransactionAnnotation this network transaction
               desiredDecimals resolvedTime) = Fulfilled (Some a) ->
    transactionLogoURL a = None /\
    resolvedName a =
    settledName (lookUpName (nameService this) target network).
Proof.
  intros Hto Hinput Hlogs.
  assert (Hblock :
    List.filter isLookUpName (calls (fetchBlock this network transaction))
      = [] /\
    List.filter isGetCachedAssets
      (calls (fetchBlock this network transaction)) = []).
  { unfold fetchBlock. destruct (truthy _); [|split; reflexivity].
    destruct (tx_blockHash transaction); split; reflexivity. }
  destruct Hblock as [Hb1 Hb2].
  assert (Hprimary : forall block,
    calls (resolvePrimaryAnnotation this network transaction
             desiredDecimals resolvedTime block) =
    [LookUpName target network] /\
    forall a0,
      outcome (resolvePrimaryAnnotation this network transaction
                 desiredDecimals resolvedTime block) = Fulfilled (Some a0) ->
      transactionLogoURL a0 = None /\
      resolvedName a0 =
      settledName (lookUpName (nameService this) target network)).
  { intros block. unfold resolvePrimaryAnnotation, inputAbsentOrEmpty in *.
    rewrite Hto.
    destruct (tx_input transaction) as [input|];
      [rewrite Hinput|];
      autorewrite with async;
      rewrite calls_lookUpNameOrUndefined, outcome_lookUpNameOrUndefined;
      (split; [destruct (lookUpName _ _ _) as [found|];
               [destruct (tx_value transaction)|]; reflexivity|]);
      intros a0; destruct (lookUpName _ _ _) as [[found|]|];
      try discriminate; destruct (tx_value transaction);
      simpl; intros E; injection E as <-; split; reflexivity. }
  assert (Hattach : forall block ann,
    attachSubannotations this network transaction desiredDecimals
      resolvedTime block ann = resolve ann).
  { intros. unfold attachSubannotations. now rewrite Hlogs. }
  rewrite calls_resolveTransactionAnnotation. split; [|split].
  - destruct (outcome (fetchBlock _ _ _)) as [block|]; [|exact Hb2].
    destruct (Hprimary block) as [Hc _].
    destruct (outcome (resolvePrimaryAnnotation _ _ _ _ _ _));
      rewrite ?Hattach, Hc, !List.filter_app, Hb2; reflexivity.
  - destruct (outcome (fetchBlock _ _ _)) as [block|]; [|exact Hb1].
    destruct (Hprimary block) as [Hc _].
    destruct (outcome (resolvePrimaryAnnotation _ _ _ _ _ _));
      rewrite ?Hattach, Hc, !List.filter_app, Hb1; reflexivity.
  - intros a Ha. apply resolve_steps in Ha as (block & a0 & _ & Hp & Ha).
    rewrite Hattach in Ha. injection Ha as <-.
    now apply (Hprimary block).
Qed.
End Names.

(** ** Republishing *)

Section Republishing.
Context `{Lib}.
Variable this : EnrichmentService.

(** What the listener does, by how the resolution settles. *)
Lemma listener_steps (transaction : ChainTransaction)
    (forAccounts : list string) (resolvedTime : Z) :
  onChainTransaction this transaction forAccounts resolvedTime =
  match outcome (resolveTransactionAnnotation this (ct_network transaction)
                   (ct_fields transaction) 2 resolvedTime) with
  | Fulfilled annotation' =>
      (Fulfilled tt,
       map Asked
         (calls (resolveTransactionAnnotation this (ct_network transaction)
                   (ct_fields transaction) 2 resolvedTime)) ++
       [ EmitEnrichedEVMTransaction
           {| et_transaction := transaction; et_annotation := annotation' |}
           forAccounts ])
  | Rejected =>
      (Rejected,
       map Asked
         (calls (resolveTransactionAnnotation this (ct_network transaction)
                   (ct_fields transaction) 2 resolvedTime)))
  end.
Proof.
  unfold onChainTransaction, enrichTransaction, thenDo, awaited, andThen,
    ask, resolve, outcome, calls. simpl.
  destruct (fst (resolveTransactionAnnotation _ _ _ _ _)); simpl;
    [|reflexivity].
  now rewrite app_nil_r.
Qed.

(** X10.  The listener on the chain service's transactions republishes a
    transaction exactly when its resolution fulfils: it then emits one
    [enrichedEVMTransaction] event, after everything it asked, carrying
    the transaction as received, the annotation resolved at two decimals on
    the transaction's own network, and the accounts as received; when the
    resolution rejects, the listener rejects and emits nothing. *)
Theorem chain_transaction_is_republished_when_resolved
    (transaction : ChainTransaction) (forAccounts : list string)
    (resolvedTime : Z) :
  match outcome (resolveTransactionAnnotation this (ct_network transaction)
                   (ct_fields transaction) 2 resolvedTime) with
  | Fulfilled annotation' =>
      settles (onChainTransaction this transaction forAccounts resolvedTime)
        = Fulfilled tt /\
      trace (onChainTransaction this transaction forAccounts resolvedTime) =
      map Asked
        (calls (resolveTransactionAnnotation this (ct_network transaction)
                  (ct_fields transaction) 2 resolvedTime)) ++
      [ EmitEnrichedEVMTransaction
          {| et_transaction := transaction; et_annotation := annotation' |}
          forAccounts ]
  | Rejected =>
      settles (onChainTransaction this transaction forAccounts resolvedTime)
        = Rejected /\
      List.filter isEmission
        (trace (onChainTransaction this transaction forAccounts
                  resolvedTime)) = []
  end.
Proof.
  rewrite listener_steps.
  destruct (outcome (resolveTransactionAnnotation _ _ _ _ _))
    as [annotation'|]; split; try reflexivity.
  apply no_emission_among_asked. intros r. apply resolver_emits_nothing.
Qed.

(** X11.  A transaction whose recipient cannot be named because the name
    service rejects is never republished: the listener rejects without
    emitting. *)
Theorem unnamed_recipient_is_not_republished
    (transaction : ChainTransaction) (forAccounts : list string)
    (resolvedTime : Z) target :
  tx_to (ct_fields transaction) = Some target ->
  (forall a, lookUpName (nameService this) a (ct_network transaction)
             = Rejected) ->
  settles (onChainTransaction this transaction forAccounts resolvedTime)
    = Rejected /\
  List.filter isEmission
    (trace (onChainTransaction this transaction forAccounts resolvedTime))
    = [].
Proof.
  intros Hto Hdown.
  rewrite listener_steps.
  rewrite (resolve_rejects_with_names this (ct_network transaction)
             (ct_fields transaction) 2 resolvedTime target Hto Hdown).
  split; [reflexivity|].
  apply no_emission_among_asked. intros r. apply resolver_emits_nothing.
Qed.

(** X12.  A signature request is resolved without a block and without
    logs: no block is asked for, and the request is returned as received
    with an annotation that has neither block timestamp nor
    subannotations; that enriched request is emitted once, after
    everything that was asked.  When the resolution rejects, nothing is
    emitted. *)
Theorem signature_request_has_no_block_and_no_logs
    (network : EVMNetwork) (transaction : TransactionSignatureRequest)
    (desiredDecimals resolvedTime : Z) :
  (forall n h,
      ~ In (Asked (GetBlockData n h))
           (trace (enrichTransactionSignature this network transaction
                     desiredDecimals resolvedTime))) /\
  match settles (enrichTransactionSignature this network transaction
                   desiredDecimals resolvedTime) with
  | Fulfilled enriched =>
      esr_request enriched = transaction /\
      (exists a, esr_annotation enriched = Some a /\
                 timestamp a = resolvedTime /\
                 blockTimestamp a = None /\ subannotations a = None) /\
      trace (enrichTransactionSignature this network transaction
               desiredDecimals resolvedTime) =
      map Asked
        (calls (resolveTransactionAnnotation this network
                  (asTransaction transaction) desiredDecimals resolvedTime))
      ++ [EmitEnrichedEVMTransactionSignatureRequest enriched]
  | Rejected =>
      List.filter isEmission
        (trace (enrichTransactionSignature this network transaction
                  desiredDecimals resolvedTime)) = []
  end.
Proof.
  assert (Hnoblock : List.filter isGetBlockData
    (calls (resolveTransactionAnnotation this network
              (asTransaction transaction) desiredDecimals resolvedTime))
    = []).
  { rewrite calls_resolveTransactionAnnotation.
    change (fetchBlock this network (asTransaction transaction))
      with (@resolve (option AnyEVMBlock) None).
    rewrite outcome_resolve.
    assert (Hprim : List.filter isGetBlockData
      (calls (resolvePrimaryAnnotation this network
                (asTransaction transaction) desiredDecimals resolvedTime
                None)) = []) by (clear; primary_cases).
    assert (Hattach : forall ann,
      attachSubannotations this network (asTransaction transaction)
        desiredDecimals resolvedTime None ann = resolve ann)
      by reflexivity.
    destruct (outcome (resolvePrimaryAnnotation _ _ _ _ _ _));
      rewrite ?Hattach; simpl; rewrite ?app_nil_r; exact Hprim. }
  pose proof (resolver_emits_nothing this network
                (asTransaction transaction) desiredDecimals resolvedTime)
    as Hquiet.
  pose proof (resolve_defined this network (asTransaction transaction)
                desiredDecimals resolvedTime) as Hdefined.
  assert (Hstamps : forall a,
    outcome (resolveTransactionAnnotation this network
               (asTransaction transaction) desiredDecimals resolvedTime)
      = Fulfilled (Some a) ->
    timestamp a = resolvedTime /\
    blockTimestamp a = None /\ subannotations a = None).
  { intros a E.
    apply resolve_steps in E as (block & a0 & Hblock & Hp & Ha).
    change (fetchBlock this network (asTransaction transaction))
      with (@resolve (option AnyEVMBlock) None) in Hblock.
    injection Hblock as <-.
    pose proof (primary_stamps _ _ _ _ _ _ _ Hp) as [Ht Hb].
    apply primary_subannotations in Hp.
    apply attach_cases in Ha. simpl in Ha. subst a0. auto. }
  unfold enrichTransactionSignature.
  set (R := resolveTransactionAnnotation this network
              (asTransaction transaction) desiredDecimals resolvedTime) in *.
  autorewrite with task.
  destruct (outcome R) as [[a|]|] eqn:E; autorewrite with task.
  - split.
    + intros n h Hin. rewrite app_nil_r, in_app_iff in Hin.
      destruct Hin as [Hin|[Hin|[]]]; [|discriminate].
      apply in_map_iff in Hin as (e & Ee & Hin). injection Ee as ->.
      assert (Hf : In (GetBlockData n h)
                      (List.filter isGetBlockData (calls R)))
        by (apply filter_In; split; [exact Hin|reflexivity]).
      now rewrite Hnoblock in Hf.
    + split; [reflexivity|]. split; [|now rewrite app_nil_r].
      exists a. split; [reflexivity|]. now apply Hstamps.
  - now contradiction Hdefined.
  - split.
    + intros n h Hin.
      apply in_map_iff in Hin as (e & Ee & Hin). injection Ee as ->.
      assert (Hf : In (GetBlockData n h)
                      (List.filter isGetBlockData (calls R)))
        by (apply filter_In; split; [exact Hin|reflexivity]).
      now rewrite Hnoblock in Hf.
    + apply no_emission_among_asked. exact Hquiet.
Qed.
End Republishing.

(** ** Typed data: the emission and the asset sought *)

Section TypedDataMore.
Context `{Lib}.
Variable this : EnrichmentService.
Variable signTypedDataRequest : SignTypedDataRequest.

(** X13.  The enriched typed-data request is emitted exactly when the
    enrichment fulfils, once, after everything that was asked, and it is
    the value returned, holding the request as received; when the
    enrichment rejects nothing is emitted.  For typed data that is not an
    EIP-2612 permit nothing is asked of any collaborator. *)
Theorem typed_data_is_emitted_once :
  match outcome (enrichSignTypedDataRequest this signTypedDataRequest) with
  | Fulfilled enriched =>
      request enriched = signTypedDataRequest /\
      exists asked,
        calls (enrichSignTypedDataRequest this signTypedDataRequest) =
        asked ++ [EmitEnrichedSignTypedDataRequest enriched] /\
        forall r, ~ In (EmitEnrichedSignTypedDataRequest r) asked
  | Rejected =>
      forall r,
        ~ In (EmitEnrichedSignTypedDataRequest r)
             (calls (enrichSignTypedDataRequest this signTypedDataRequest))
  end /\
  (isEIP2612TypedData (typedData signTypedDataRequest) = None ->
   calls (enrichSignTypedDataRequest this signTypedDataRequest) =
   [ EmitEnrichedSignTypedDataRequest
       {| request := signTypedDataRequest; annotation := Unrecognized |} ]).
Proof.
  unfold enrichSignTypedDataRequest, enrichEIP2612SignTypedDataRequest.
  split.
  - destruct (isEIP2612TypedData _) as [permit|].
    + destruct (getCachedAssets (indexingService this) ETHEREUM)
        as [assets|]; autorewrite with async.
      * split; [reflexivity|]. exists [GetCachedAssets ETHEREUM].
        split; [reflexivity|]. simpl. intuition congruence.
      * simpl. intuition congruence.
    + autorewrite with async. split; [reflexivity|]. exists [].
      split; [reflexivity|]. simpl. tauto.
  - intros ->. reflexivity.
Qed.

(** X14.  The asset sought for a permit is never found when the domain has
    no verifying contract or an empty one, and an asset that is found is
    one of the list, has a contract address, and that address and the
    verifying contract normalize to the same hex address; assets that come
    before it in the list do not. *)
Theorem corresponding_asset_has_the_verifying_contract
    (assets : list AnyAsset) (typedData' : EIP712TypedData) :
  (truthy (verifyingContract (domain typedData')) = false ->
   findCorrespondingAsset assets typedData' = None) /\
  (forall found,
      findCorrespondingAsset assets typedData' = Some found ->
      exists before after contract verifying,
        assets = before ++ found :: after /\
        contractAddress found = Some contract /\
        verifyingContract (domain typedData') = Some verifying /\
        verifying <> "" /\
        normalizeHexAddress contract = normalizeHexAddress verifying /\
        forall other contract',
          In other before -> contractAddress other = Some contract' ->
          normalizeHexAddress contract' <> normalizeHexAddress verifying).
Proof.
  unfold findCorrespondingAsset. split.
  - intros Hno.
    destruct (List.find _ assets) as [found|] eqn:E; [|reflexivity].
    apply find_some in E as [_ E]. rewrite Hno in E. discriminate.
  - induction assets as [|x l IH]; simpl; [discriminate|].
    intros found.
    destruct (truthy (verifyingContract (domain typedData'))) eqn:Ht.
    + destruct (verifyingContract (domain typedData')) as [v|] eqn:Hv;
        [|discriminate].
      assert (Hne : v <> "").
      { intros ->. discriminate. }
      destruct (contractAddress x) as [c|] eqn:Hc.
      * destruct (String.eqb_spec (normalizeHexAddress c)
                    (normalizeHexAddress v)) as [Heq|Hneq].
        -- intros E. injection E as <-.
           exists [], l, c, v. repeat split; auto; intros ? ? [].
        -- intros Hfound.
           destruct (IH found Hfound)
             as (before & after & c' & v' & -> & Hc' & Hv' & Hne' & Hn & Hb).
           injection Hv' as <-.
           exists (x :: before), after, c', v. repeat split; auto.
           intros other contract' [<-|Hin] Ho; [congruence|eauto].
      * intros Hfound.
        destruct (IH found Hfound)
          as (before & after & c' & v' & -> & Hc' & Hv' & Hne' & Hn & Hb).
        injection Hv' as <-.
        exists (x :: before), after, c', v. repeat split; auto.
        intros other contract' [<-|Hin] Ho; [congruence|eauto].
    + intros Hfound. apply find_some in Hfound as [_ Hfound].
      discriminate.
Qed.
End TypedDataMore.

(** ** The transaction history *)

Section Sorting.
Context {A : Type}.
Variable cmp : A -> A -> JSNumber.

Lemma insertSorted_permutation x l :
  Permutation (insertSorted cmp x l) (x :: l).
Proof.
  induction l as [|y l IH]; simpl; [reflexivity|].
  destruct (notPositive (cmp x y)); [reflexivity|].
  rewrite IH. apply perm_swap.
Qed.

Lemma arraySort_permutation l : Permutation (arraySort cmp l) l.
Proof.
  induction l as [|x l IH]; simpl; [reflexivity|].
  rewrite insertSorted_permutation. now constructor.
Qed.
End Sorting.

(** Integers that are doubles are left alone. *)
Lemma roundToDouble_exact z : Z.abs z < 2 ^ 53 -> roundToDouble z = z.
Proof.
  intros Hz. unfold roundToDouble.
  destruct (Z.ltb_spec (Z.abs z) (2 ^ 53)); [reflexivity|lia].
Qed.

(** Rounding keeps the sign. *)
Lemma roundToDouble_nonpos z : roundToDouble z <= 0 <-> z <= 0.
Proof.
  unfold roundToDouble.
  destruct (Z.ltb_spec (Z.abs z) (2 ^ 53)) as [|Hbig]; [reflexivity|].
  set (n := Z.abs z) in *.
  assert (Hn : 0 < n) by (pose proof (Z.pow_pos_nonneg 2 53); lia).
  set (ulp := 2 ^ (Z.log2 n - 52)).
  assert (Hlog : 52 <= Z.log2 n).
  { assert (53 <= Z.log2 n); [|lia].
    apply Z.log2_le_pow2; lia. }
  assert (Hulp : 0 < ulp) by (apply Z.pow_pos_nonneg; lia).
  assert (Hle : ulp <= n).
  { transitivity (2 ^ Z.log2 n).
    - apply Z.pow_le_mono_r; lia.
    - apply Z.log2_spec. exact Hn. }
  assert (Hq : 1 <= n / ulp).
  { apply Z.div_le_lower_bound; lia. }
  set (q' := if 2 * (n mod ulp) <? ulp then n / ulp
             else if ulp <? 2 * (n mod ulp) then n / ulp + 1
             else if Z.even (n / ulp) then n / ulp else n / ulp + 1).
  assert (Hq' : 1 <= q').
  { unfold q'. destruct (_ <? _); [lia|].
    destruct (_ <? _); [lia|]. destruct (Z.even _); lia. }
  assert (Hpos : 0 < q' * ulp) by nia.
  unfold n in Hn. destruct z; simpl in *; lia.
Qed.

Section HistoryOrder.
Context `{HistoryLib}.

Lemma filter_insertSorted k x l :
  List.filter (inBlock k) (insertSorted byBlockNum x l) =
  List.filter (inBlock k) (x :: l).
Proof.
  induction l as [|y l IH]; simpl; [reflexivity|].
  destruct (notPositive (byBlockNum x y)) eqn:Hc; [reflexivity|].
  simpl. rewrite IH. simpl.
  unfold byBlockNum, minus, notPositive, inBlock in *.
  destruct (parseInt (blockNum x)) as [a|]; [|discriminate].
  destruct (parseInt (blockNum y)) as [b|]; [|discriminate].
  destruct (Z.eqb_spec a k), (Z.eqb_spec b k); try reflexivity.
  apply Z.leb_gt in Hc.
  assert (~ a - b <= 0) by (rewrite <- roundToDouble_nonpos; lia). lia.
Qed.

(** The sort is stable: the transfers of one block keep their order. *)
Lemma filter_arraySort k l :
  List.filter (inBlock k) (arraySort byBlockNum l) =
  List.filter (inBlock k) l.
Proof.
  induction l as [|x l IH]; simpl; [reflexivity|].
  rewrite filter_insertSorted. simpl. now rewrite IH.
Qed.

Lemma insertSorted_sorted x l :
  (exists a, parseInt (blockNum x) = Num a) ->
  List.Forall (fun t => exists a, parseInt (blockNum t) = Num a) l ->
  StronglySorted notAfter l ->
  StronglySorted notAfter (insertSorted byBlockNum x l).
Proof.
  intros [a Ha] Hvalid. induction 1 as [|y l Hs IH Hy]; simpl.
  - repeat constructor.
  - apply List.Forall_cons_iff in Hvalid as [[b Hb] Hvalid].
    unfold byBlockNum, minus, notPositive. rewrite Ha, Hb.
    destruct (Z.leb_spec (roundToDouble (a - b)) 0) as [Hle|Hgt];
      [apply (proj1 (roundToDouble_nonpos _)) in Hle
      |assert (Hgt' : ~ a - b <= 0)
         by (rewrite <- roundToDouble_nonpos; lia)].
    + constructor; [now constructor|]. constructor.
      * unfold notAfter. rewrite Ha, Hb. lia.
      * eapply List.Forall_impl; [|exact Hy]. intros z Hz.
        unfold notAfter in *. rewrite Ha. rewrite Hb in Hz.
        destruct (parseInt (blockNum z)); [lia|contradiction].
    + constructor; [now apply IH|].
      eapply Permutation_Forall;
        [symmetry; apply insertSorted_permutation|].
      constructor; [|exact Hy]. unfold notAfter. rewrite Ha, Hb. lia.
Qed.

(** With block numbers that [parseInt] reads, the sort puts the transfers
    in the order of their blocks. *)
Lemma arraySort_sorted l :
  List.Forall (fun t => exists a, parseInt (blockNum t) = Num a) l ->
  StronglySorted notAfter (arraySort byBlockNum l).
Proof.
  induction 1 as [|x l Hx Hl IH]; simpl; [constructor|].
  apply insertSorted_sorted; [exact Hx| |exact IH].
  eapply Permutation_Forall; [symmetry; apply arraySort_permutation|].
  exact Hl.
Qed.
End HistoryOrder.

Section HistoryProperties.
Context `{HistoryLib}.
Variable this : Transactions.
Variables (address : string) (toBlock' : option string).

Lemma requestedHashes_app l1 l2 :
  requestedHashes (l1 ++ l2) = requestedHashes l1 ++ requestedHashes l2.
Proof. apply flat_map_app. Qed.

Lemma fetchAndFormat_settles fiatValue t :
  settles (fetchAndFormat this fiatValue t) =
  Fulfilled (historyEntry this fiatValue t).
Proof.
  unfold fetchAndFormat, historyEntry, tryCatch, thenDo, ask, settles. simpl.
  destruct (eth_getTransactionByHash _ _) as [transaction|]; simpl;
    [|reflexivity].
  destruct (formatTransaction _ _); reflexivity.
Qed.

Lemma fetchAndFormat_requests fiatValue t :
  requestedHashes (trace (fetchAndFormat this fiatValue t)) = [hash t].
Proof.
  unfold fetchAndFormat, tryCatch, thenDo, ask, trace. simpl.
  destruct (eth_getTransactionByHash _ _) as [transaction|]; simpl;
    [|reflexivity].
  destruct (formatTransaction _ _); reflexivity.
Qed.

Lemma entries_of_batch fiatValue l :
  map valueOf (map settles (map (fetchAndFormat this fiatValue) l)) =
  map (historyEntry this fiatValue) l.
Proof.
  rewrite !map_map. apply map_ext. intros t.
  now rewrite fetchAndFormat_settles.
Qed.

(** Every transaction is asked for when its task is created. *)
Lemma starts_of_batch fiatValue l :
  flat_map (fun p => firstn 1 (trace p))
    (map (fetchAndFormat this fiatValue) l) =
  map (fun t => EthGetTransactionByHash (hash t)) l.
Proof.
  induction l as [|t l IH]; simpl; [reflexivity|]. rewrite IH. f_equal.
  unfold fetchAndFormat, tryCatch, thenDo, ask, trace. simpl.
  destruct (eth_getTransactionByHash _ _) as [transaction|]; simpl;
    [|reflexivity].
  destruct (formatTransaction _ _); reflexivity.
Qed.

(** What follows the answers is error logging only. *)
Lemma rest_of_batch fiatValue l e :
  In e (flat_map (fun p => skipn 1 (trace p))
          (map (fetchAndFormat this fiatValue) l)) ->
  e = ConsoleError.
Proof.
  intros He. apply in_flat_map in He as (p & Hp & He).
  apply in_map_iff in Hp as (t & <- & _). revert He.
  unfold fetchAndFormat, tryCatch, thenDo, ask, trace. simpl.
  destruct (eth_getTransactionByHash _ _) as [transaction|]; simpl;
    [destruct (formatTransaction _ _); simpl|]; intuition.
Qed.

Lemma requests_of_batch fiatValue l :
  requestedHashes
    (trace (settleAll (map (fetchAndFormat this fiatValue) l))) =
  map hash l.
Proof.
  change (trace (settleAll (map (fetchAndFormat this fiatValue) l)))
    with (flat_map (fun p => firstn 1 (trace p))
            (map (fetchAndFormat this fiatValue) l) ++
          flat_map (fun p => skipn 1 (trace p))
            (map (fetchAndFormat this fiatValue) l)).
  rewrite requestedHashes_app, starts_of_batch.
  assert (Hrest : forall events,
    (forall e, In e events -> e = ConsoleError) ->
    requestedHashes events = []).
  { induction events as [|e es IH]; intros Hall; simpl; [reflexivity|].
    rewrite (Hall e) by (simpl; auto). simpl.
    apply IH. intros; apply Hall; simpl; auto. }
  rewrite (Hrest _ (rest_of_batch fiatValue l)), app_nil_r.
  induction l as [|t l IH]; simpl; [reflexivity|]. now rewrite IH.
Qed.

(** What a history is when the node and the price feed answer. *)
Lemma getHistory_steps head fiatValue incoming outgoing :
  eth_blockNumber (query this) = Fulfilled head ->
  getFiatValue this = Fulfilled fiatValue ->
  alchemy_getAssetTransfers (query this)
    (historyParams head address toBlock' true) = Fulfilled incoming ->
  alchemy_getAssetTransfers (query this)
    (historyParams head address toBlock' false) = Fulfilled outgoing ->
  let sorted :=
    arraySort byBlockNum
      (orEmpty (transfers incoming) ++ orEmpty (transfers outgoing)) in
  getHistory this address toBlock' =
  (Fulfilled (map (historyEntry this fiatValue) sorted),
   [ EthBlockNumber; GetFiatValue;
     AlchemyGetAssetTransfers (historyParams head address toBlock' true);
     AlchemyGetAssetTransfers (historyParams head address toBlock' false) ]
   ++ trace (settleAll (map (fetchAndFormat this fiatValue) sorted))).
Proof.
  intros Hhead Hfiat Hin Hout sorted.
  unfold getHistory, thenDo, ask, settleAll, finish, trace. simpl.
  rewrite Hhead. simpl. rewrite Hfiat. simpl.
  unfold historyParams in Hin, Hout. rewrite Hin. simpl.
  rewrite Hout. simpl. fold sorted.
  now rewrite entries_of_batch, app_nil_r.
Qed.

(** X15.  When the node and the price feed answer, the history fulfils
    whatever becomes of the single transactions: it has one entry for each
    transfer of the two answers taken together (a transfer that is in both
    is listed twice), and the entry is undefined where the transaction
    could not be fetched or formatted. *)
Theorem history_has_an_entry_per_transfer head fiatValue incoming outgoing :
  eth_blockNumber (query this) = Fulfilled head ->
  getFiatValue this = Fulfilled fiatValue ->
  alchemy_getAssetTransfers (query this)
    (historyParams head address toBlock' true) = Fulfilled incoming ->
  alchemy_getAssetTransfers (query this)
    (historyParams head address toBlock' false) = Fulfilled outgoing ->
  exists listed,
    Permutation listed
      (orEmpty (transfers incoming) ++ orEmpty (transfers outgoing)) /\
    settles (getHistory this address toBlock') =
    Fulfilled (map (historyEntry this fiatValue) listed) /\
    length (map (historyEntry this fiatValue) listed) =
    (length (orEmpty (transfers incoming)) +
     length (orEmpty (transfers outgoing)))%nat.
Proof.
  intros Hhead Hfiat Hin Hout.
  eexists. split; [apply (arraySort_permutation byBlockNum)|].
  rewrite (getHistory_steps head fiatValue incoming outgoing
             Hhead Hfiat Hin Hout).
  split; [reflexivity|].
  rewrite length_map, <- length_app.
  apply Permutation_length, arraySort_permutation.
Qed.

(** X16.  When [parseInt] reads the block number of every transfer
    received, the transactions are asked for, and listed, in the order of
    their blocks: no transfer comes after one of a later block, and the
    transfers of one block keep the order in which they were received,
    incoming before outgoing. *)
Theorem history_is_in_block_order head fiatValue incoming outgoing :
  eth_blockNumber (query this) = Fulfilled head ->
  getFiatValue this = Fulfilled fiatValue ->
  alchemy_getAssetTransfers (query this)
    (historyParams head address toBlock' true) = Fulfilled incoming ->
  alchemy_getAssetTransfers (query this)
    (historyParams head address toBlock' false) = Fulfilled outgoing ->
  let received :=
    orEmpty (transfers incoming) ++ orEmpty (transfers outgoing) in
  List.Forall (fun t => exists n, parseInt (blockNum t) = Num n) received ->
  exists listed,
    settles (getHistory this address toBlock') =
    Fulfilled (map (historyEntry this fiatValue) listed) /\
    requestedHashes (trace (getHistory this address toBlock')) =
    map hash listed /\
    StronglySorted notAfter listed /\
    (forall k, List.filter (inBlock k) listed =
               List.filter (inBlock k) received).
Proof.
  intros Hhead Hfiat Hin Hout received Hread.
  exists (arraySort byBlockNum received).
  rewrite (getHistory_steps head fiatValue incoming outgoing
             Hhead Hfiat Hin Hout).
  fold received. repeat split.
  - unfold trace at 1. simpl. apply requests_of_batch.
  - now apply arraySort_sorted.
  - intros k. apply filter_arraySort.
Qed.

(** X17.  When the node or the price feed rejects, the history rejects
    without having asked for any transaction. *)
Theorem history_rejection_fetches_nothing :
  settles (getHistory this address toBlock') = Rejected ->
  requestedHashes (trace (getHistory this address toBlock')) = [] /\
  ~ In ConsoleError (trace (getHistory this address toBlock')).
Proof.
  destruct (eth_blockNumber (query this)) as [head|] eqn:Hhead.
  - destruct (getFiatValue this) as [fiatValue|] eqn:Hfiat.
    + destruct (alchemy_getAssetTransfers (query this)
                  (historyParams head address toBlock' true))
        as [incoming|] eqn:Hin.
      * destruct (alchemy_getAssetTransfers (query this)
                    (historyParams head address toBlock' false))
          as [outgoing|] eqn:Hout.
        -- rewrite (getHistory_steps head fiatValue incoming outgoing
                      Hhead Hfiat Hin Hout). discriminate.
        -- intros _. unfold getHistory, thenDo, ask. simpl.
           rewrite Hhead. simpl. rewrite Hfiat. simpl.
           unfold historyParams in Hin, Hout. rewrite Hin. simpl.
           rewrite Hout. simpl. intuition congruence.
      * intros _. unfold getHistory, thenDo, ask. simpl.
        rewrite Hhead. simpl. rewrite Hfiat. simpl.
        unfold historyParams in Hin. rewrite Hin. simpl.
        intuition congruence.
    + intros _. unfold getHistory, thenDo, ask. simpl.
      rewrite Hhead. simpl. rewrite Hfiat. simpl. intuition congruence.
  - intros _. unfold getHistory, thenDo, ask. simpl.
    rewrite Hhead. simpl. intuition congruence.
Qed.

(** X18.  The history asks for the head block, then for the fiat value,
    then for the transfers to the address and then for those from it, both
    from the same block, 30000 behind the head, up to the same block
    (["latest"] unless given), zero-value transfers included. *)
Theorem history_asks_for_both_directions head fiatValue incoming :
  eth_blockNumber (query this) = Fulfilled head ->
  getFiatValue this = Fulfilled fiatValue ->
  alchemy_getAssetTransfers (query this)
    (historyParams head address toBlock' true) = Fulfilled incoming ->
  exists rest,
    trace (getHistory this address toBlock') =
    [ EthBlockNumber; GetFiatValue;
      AlchemyGetAssetTransfers
        {| fromBlock := fromBlockTag (parseInt head);
           toBlock := match toBlock' with Some b => b | None => "latest" end;
           toAddress := Some address; fromAddress := None;
           excludeZeroValue := false |};
      AlchemyGetAssetTransfers
        {| fromBlock := fromBlockTag (parseInt head);
           toBlock := match toBlock' with Some b => b | None => "latest" end;
           toAddress := None; fromAddress := Some address;
           excludeZeroValue := false |} ] ++ rest /\
    forall e, In e rest ->
              e = ConsoleError \/ exists h, e = EthGetTransactionByHash h.
Proof.
  intros Hhead Hfiat Hin.
  unfold getHistory, thenDo, ask, settleAll, finish, trace. simpl.
  rewrite Hhead. simpl. rewrite Hfiat. simpl.
  unfold historyParams in Hin. rewrite Hin. simpl. clear Hin.
  destruct (alchemy_getAssetTransfers (query this)
              {| fromBlock := _; toBlock := _; toAddress := None;
                 fromAddress := _; excludeZeroValue := _ |})
    as [outgoing|]; simpl.
  - eexists. split; [reflexivity|]. rewrite app_nil_r.
    intros e He. apply in_app_iff in He as [He|He].
    + pose proof (starts_of_batch fiatValue
                    (arraySort byBlockNum
                       (orEmpty (transfers incoming) ++
                        orEmpty (transfers outgoing)))) as Hstarts.
      unfold trace in Hstarts. rewrite Hstarts in He.
      apply in_map_iff in He as (t & <- & _). eauto.
    + left. exact (rest_of_batch fiatValue _ e He).
  - exists []. split; [reflexivity|]. intros e [].
Qed.
End HistoryProperties.

(** X19.  The block the history starts from is written as the head minus
    30000 in hexadecimal.  Where that difference is a double, that is up
    to a size of 2^53: for a head of at least 30000 the tag is a quantity
    that reads back as that number, and for a younger chain it is a
    negative number ([0x-...]).  For a head that [parseInt] cannot read it
    is [0xNaN]. *)
Theorem from_block_tag_cases :
  (forall n, 30000 <= n -> n - 30000 < 2 ^ 53 ->
     exists digits u,
       fromBlockTag (Num n) = ("0x" ++ digits)%string /\
       NilZero.uint_of_string digits = Some u /\
       Z.of_hex_uint u = n - 30000) /\
  (forall n, n < 30000 -> 30000 - n < 2 ^ 53 ->
     fromBlockTag (Num n) =
     ("0x-" ++ toString16 (Num (30000 - n)))%string) /\
  fromBlockTag NaN = "0xNaN".
Proof.
  unfold fromBlockTag, minus. change (10000 * 3) with 30000.
  split; [|split; [|reflexivity]].
  - intros n Hn Hsmall.
    rewrite roundToDouble_exact by lia.
    destruct (n - 30000) as [|p|p] eqn:E; try lia; simpl.
    + exists "0", (Hexadecimal.D0 Hexadecimal.Nil). repeat split.
    + exists (NilZero.string_of_uint (Pos.to_hex_uint p)),
        (Pos.to_hex_uint p). repeat split.
      * apply NilZero.usu. apply HexadecimalPos.Unsigned.to_uint_nonnil.
      * unfold Z.of_hex_uint.
        now rewrite HexadecimalPos.Unsigned.of_to.
  - intros n Hn Hsmall.
    rewrite roundToDouble_exact by lia.
    destruct (n - 30000) as [|p|p] eqn:E; try lia.
    replace (30000 - n) with (Z.pos p) by lia. reflexivity.
Qed.

(** X20.  The transaction handed to the formatter is marked [local: false]
    unless the fetched transaction has a [local] field of its own, which
    is kept; every other field is the fetched transaction's, and a
    transaction the node does not know ([null]) leaves [local] alone. *)
Theorem fetched_transaction_keeps_its_own_local
    (transaction : option (gmap string JSValue)) :
  withLocalFalse transaction !! "local" =
  match transaction with
  | Some t => match t !! "local" with
              | Some own => Some own
              | None => Some "false"
              end
  | None => Some "false"
  end /\
  forall field, field <> "local" ->
    withLocalFalse transaction !! field =
    match transaction with
    | Some t => t !! field
    | None => None
    end.
Proof.
  unfold withLocalFalse. destruct transaction as [t|]; split.
  - destruct (t !! "local") as [own|] eqn:E.
    + now apply lookup_union_Some_l.
    + rewrite lookup_union_r by exact E. apply lookup_singleton_eq.
  - intros field Hne. apply lookup_union_l, lookup_singleton_ne. congruence.
  - apply lookup_singleton_eq.
  - intros field Hne. now apply lookup_singleton_ne.
Qed.

(** ** The rest of the service and the history on the small world *)

Section MoreRuns.
Import Fixture MoreFixture.

Lemma subannotations_share_the_stamps_witness :
  exists a subs,
    outcome (@resolveTransactionAnnotation lib flakyService mainnet
               transferWithLogs 2 1000) = Fulfilled (Some a) /\
    subannotations a = Some subs /\
    blockTimestamp a = Some 1700 /\
    forall s, In s subs ->
              timestamp s = 1000 /\ blockTimestamp s = Some 1700.
Proof.
  eexists _, _. split; [reflexivity|]. split; [reflexivity|].
  split; [reflexivity|]. intros s Hs.
  destruct (@subannotations_share_the_stamps lib flakyService mainnet
              transferWithLogs 2 1000 _ eq_refl) as [_ Hsubs].
  destruct (Hsubs _ s eq_refl Hs) as (Ht & Hb & _). split; assumption.
Defined.


Lemma block_fetch_rejection_is_fatal_witness :
  outcome (@resolveTransactionAnnotation lib deafService mainnet
             unknownCall 2 1000) = Rejected /\
  calls (@resolveTransactionAnnotation lib deafService mainnet
           unknownCall 2 1000) = [GetBlockData mainnet "0xb10c"].
Proof.
  apply (@block_fetch_rejection_is_fatal lib deafService mainnet
           unknownCall 2 1000 "0xb10c"); [reflexivity|discriminate|reflexivity].
Defined.


Lemma subannotations_do_not_depend_on_the_primary_witness :
  exists a a',
    outcome (@resolveTransactionAnnotation lib service mainnet
               transferWithLogs 2 1000) = Fulfilled (Some a) /\
    outcome (@resolveTransactionAnnotation lib service mainnet
               deploymentWithLogs 2 1000) = Fulfilled (Some a') /\
    annotationType a = "asset-transfer" /\
    annotationType a' = "contract-deployment" /\
    subannotations a = subannotations a'.
Proof.
  eexists _, _. split; [reflexivity|]. split; [reflexivity|].
  split; [reflexivity|]. split; [reflexivity|].
  exact (@subannotations_do_not_depend_on_the_primary lib service mainnet
           2 1000 transferWithLogs deploymentWithLogs _ _
           eq_refl eq_refl eq_refl eq_refl).
Defined.

Lemma decoded_party_is_named_witness :
  calls (@resolvePrimaryAnnotation lib service mainnet transferWithLogs
           2 1000 None) =
  [ GetCachedAssets mainnet; LookUpName "0xbbb" mainnet ] /\
  exists a,
    outcome (@resolvePrimaryAnnotation lib service mainnet transferWithLogs
               2 1000 None) = Fulfilled (Some a) /\
    resolvedName a = Some "bob.eth".
Proof.
  exact (@decoded_party_is_named lib service mainnet transferWithLogs 2 1000
           "0xa0b8" "0xa9059cbb" (Transfer "0xbbb" 5000000) [ETH; USDC]
           USDC None eq_refl eq_refl
           ltac:(discriminate) eq_refl eq_refl eq_refl).
Defined.

Lemma deployment_asks_for_nothing_witness :
  @resolveTransactionAnnotation lib blindService mainnet pendingDeployment
    2 1000 =
  (Fulfilled (Some {| timestamp := 1000; blockTimestamp := None;
                      transactionLogoURL := None; subannotations := None;
                      detail := ContractDeployment |}), []).
Proof.
  exact (@deployment_asks_for_nothing lib blindService mainnet
           pendingDeployment 2 1000 None eq_refl eq_refl eq_refl).
Defined.

Lemma plain_send_reads_no_assets_witness :
  List.filter isGetCachedAssets
    (calls (@resolveTransactionAnnotation lib service mainnet
              zeroValueSend 2 1000)) = [] /\
  List.filter isLookUpName
    (calls (@resolveTransactionAnnotation lib service mainnet
              zeroValueSend 2 1000)) = [LookUpName "0xa0b8" mainnet] /\
  forall a,
    outcome (@resolveTransactionAnnotation lib service mainnet
               zeroValueSend 2 1000) = Fulfilled (Some a) ->
    transactionLogoURL a = None /\ resolvedName a = None.
Proof.
  exact (@plain_send_reads_no_assets lib service mainnet zeroValueSend
           2 1000 "0xa0b8" eq_refl eq_refl eq_refl).
Defined.

Lemma unnamed_recipient_is_not_republished_witness :
  settles (@onChainTransaction lib downService (onMainnet unknownCall)
             ["0xaaa"] 1000) = Rejected /\
  List.filter isEmission
    (trace (@onChainTransaction lib downService (onMainnet unknownCall)
              ["0xaaa"] 1000)) = [].
Proof.
  apply (@unnamed_recipient_is_not_republished lib downService
           (onMainnet unknownCall) ["0xaaa"] 1000 "0xa0b8");
    [reflexivity|intros a; reflexivity].
Defined.

Lemma typed_data_is_emitted_once_witness :
  calls (@enrichSignTypedDataRequest lib service mailRequest) =
  [ EmitEnrichedSignTypedDataRequest
      {| request := mailRequest; annotation := Unrecognized |} ].
Proof.
  exact (proj2 (@typed_data_is_emitted_once lib service mailRequest)
           eq_refl).
Defined.

Lemma corresponding_asset_has_the_verifying_contract_witness :
  exists before after,
    [ETH; USDC] = before ++ USDC :: after /\
    forall other contract',
      In other before -> contractAddress other = Some contract' ->
      @normalizeHexAddress lib contract' <> @normalizeHexAddress lib "0xA0B8".
Proof.
  destruct (proj2 (@corresponding_asset_has_the_verifying_contract lib
                     [ETH; USDC]
                     (typedData (permitRequest 137 "0xA0B8")))
              USDC eq_refl)
    as (before & after & contract & verifying & Hsplit & _ & Hv & _ & _ & Hb).
  injection Hv as <-. now exists before, after.
Defined.
End MoreRuns.

Section HistoryRuns.
Import HistoryFixture.

Lemma history_has_an_entry_per_transfer_witness :
  exists listed,
    Permutation listed (incoming ++ outgoing) /\
    settles (@getHistory lib wallet "0xme" None) =
    Fulfilled (map (@historyEntry lib wallet "1800.5") listed) /\
    length (map (@historyEntry lib wallet "1800.5") listed) = 5%nat.
Proof.
  exact (@history_has_an_entry_per_transfer lib wallet "0xme" None "0x9c40"
           "1800.5" {| transfers := Some incoming |}
           {| transfers := Some outgoing |} eq_refl eq_refl eq_refl eq_refl).
Defined.

Lemma history_is_in_block_order_witness :
  exists listed,
    settles (@getHistory lib wallet "0xme" None) =
    Fulfilled (map (@historyEntry lib wallet "1800.5") listed) /\
    requestedHashes (trace (@getHistory lib wallet "0xme" None)) =
    map hash listed /\
    StronglySorted (@notAfter lib) listed /\
    List.filter (@inBlock lib 16) listed =
    [ {| hash := "0xh2"; blockNum := "0x10" |};
      {| hash := "0xh2"; blockNum := "0x10" |} ].
Proof.
  destruct (@history_is_in_block_order lib wallet "0xme" None "0x9c40"
              "1800.5" {| transfers := Some incoming |}
              {| transfers := Some outgoing |}
              eq_refl eq_refl eq_refl eq_refl)
    as (listed & Hsettles & Hasked & Hsorted & Hstable).
  - repeat constructor; eexists; reflexivity.
  - exists listed. split; [exact Hsettles|]. split; [exact Hasked|].
    split; [exact Hsorted|]. rewrite Hstable. reflexivity.
Defined.

Lemma history_rejection_fetches_nothing_witness :
  settles (@getHistory lib unpricedWallet "0xme" None) = Rejected /\
  requestedHashes (trace (@getHistory lib unpricedWallet "0xme" None)) = [].
Proof.
  split; [reflexivity|].
  exact (proj1 (@history_rejection_fetches_nothing lib unpricedWallet
                  "0xme" None eq_refl)).
Defined.

Lemma history_asks_for_both_directions_witness :
  exists rest,
    trace (@getHistory lib youngWallet "0xme" (Some "0x20")) =
    [ EthBlockNumber; GetFiatValue;
      AlchemyGetAssetTransfers
        {| fromBlock := "0x-7520"; toBlock := "0x20";
           toAddress := Some "0xme"; fromAddress := None;
           excludeZeroValue := false |};
      AlchemyGetAssetTransfers
        {| fromBlock := "0x-7520"; toBlock := "0x20";
           toAddress := None; fromAddress := Some "0xme";
           excludeZeroValue := false |} ] ++ rest.
Proof.
  destruct (@history_asks_for_both_directions lib youngWallet "0xme"
              (Some "0x20") "0x10" "1800.5" {| transfers := None |}
              eq_refl eq_refl eq_refl) as (rest & Htrace & _).
  exists rest. exact Htrace.
Defined.

Lemma from_block_tag_cases_witness :
  (exists digits u,
     fromBlockTag (Num 40000) = ("0x" ++ digits)%string /\
     NilZero.uint_of_string digits = Some u /\
     Z.of_hex_uint u = 10000) /\
  fromBlockTag (Num 16) = "0x-7520".
Proof.
  split.
  - exact (proj1 from_block_tag_cases 40000 ltac:(lia) ltac:(reflexivity)).
  - exact (proj1 (proj2 from_block_tag_cases) 16 ltac:(lia)
             ltac:(reflexivity)).
Defined.

(** Past 2^53 the difference is rounded: at a head of 2^60, where doubles
    are 128 apart, the tag is that of 2^60 - 29952. *)
Example from_block_tag_of_a_huge_head :
  fromBlockTag (Num (2 ^ 60)) = "0xfffffffffff8b00" /\
  roundToDouble (2 ^ 60 - 30000) = 2 ^ 60 - 29952.
Proof. split; vm_compute; reflexivity. Qed.

Lemma fetched_transaction_keeps_its_own_local_witness :
  withLocalFalse (Some (<["local" := "true"]> (<["hash" := "0xh3"]> ∅)))
    !! "hash" = Some "0xh3".
Proof.
  exact (proj2 (fetched_transaction_keeps_its_own_local
                  (Some (<["local" := "true"]> (<["hash" := "0xh3"]> ∅))))
           "hash" ltac:(discriminate)).
Defined.
End HistoryRuns.
